(** * Umbrel Kiosk: the configuration store, the URL policy and the
      navigation and resilience controller of the browser shell.

    The development follows [src/config.js] and [src/main.js].  Module-level
    JavaScript variables become fields of explicit state records, event
    handlers become functions from state to state, and the calls a handler
    makes on the window ([loadURL], [loadFile], timers, injected scripts)
    are recorded in the state next to the variables. *)

From Stdlib Require Import ZArith String Ascii List Bool Lia.
From stdpp Require Import base option list gmap strings fin_maps pretty.

Local Open Scope string_scope.
#[local] Set Warnings "-register-all".

(** ** JavaScript values that travel through the configuration store *)

(** Values as [JSON.parse] and the IPC bridge deliver them.  A number is
    kept as its literal: the store never computes with it. *)
Inductive JSValue : Type :=
| JUndefined
| JNull
| JBool (b : bool)
| JNum (literal : string)
| JStr (s : string)
| JArr (items : list JSValue)
| JObj (fields : list (string * JSValue)).

(** What [JSON.parse (JSON.stringify v)] gives back: a property holding
    [undefined] is dropped, [undefined] inside an array becomes [null]. *)
Fixpoint jsonify (v : JSValue) : JSValue :=
  match v with
  | JUndefined => JNull
  | JArr items => JArr (map jsonify items)
  | JObj fields =>
      JObj ((fix keep (l : list (string * JSValue)) : list (string * JSValue) :=
               match l with
               | [] => []
               | (k, JUndefined) :: r => keep r
               | (k, x) :: r => (k, jsonify x) :: keep r
               end) fields)
  | other => other
  end.

Module Config.

(** [[Prototype]] of a plain object. *)
Inductive Proto : Type :=
| ObjectPrototype
| NullPrototype
| ValuePrototype (o : JSValue).

(** A plain JavaScript object used as a map: own enumerable data
    properties and the prototype link. *)
Record JSObject : Type := mkObject {
  props : gmap string JSValue;
  proto : Proto
}.

(** An object literal (or a spread into a fresh literal). *)
Definition literal (m : gmap string JSValue) : JSObject :=
  {| props := m; proto := ObjectPrototype |}.

(** [const DEFAULT_CONFIG = { ... }] *)
Definition DEFAULT_CONFIG : gmap string JSValue :=
  <["cursorTheme" := JStr "dark"]>
  (<["cursorSize" := JStr "medium"]>
  (<["dockPosition" := JStr "bottom-right"]>
  (<["dockSize" := JStr "medium"]>
  (<["homeUrl" := JStr "http://umbrel.local"]> ∅)))).

(** One-character strings of [s], for the index properties of a string. *)
Fixpoint chars (s : string) : list JSValue :=
  match s with
  | EmptyString => []
  | String c r => JStr (String c EmptyString) :: chars r
  end.

(** Index properties ["0"], ["1"], ... of an array or string, added to [m]. *)
Fixpoint put_indexed (i : nat) (items : list JSValue)
    (m : gmap string JSValue) : gmap string JSValue :=
  match items with
  | [] => m
  | x :: r => put_indexed (S i) r (<[pretty i := x]> m)
  end.

(** [{ ...base, ...v }]: the own enumerable properties of [v] are copied over
    [base] in order, a later duplicate winning; primitives other than
    strings contribute nothing. *)
Definition spread_over (base : gmap string JSValue) (v : JSValue)
    : gmap string JSValue :=
  match v with
  | JObj fields => fold_left (fun m kv => <[kv.1 := kv.2]> m) fields base
  | JArr items => put_indexed 0 items base
  | JStr s => put_indexed 0 (chars s) base
  | _ => base
  end.

(** Does looking up ["__proto__"] along the prototype chain reach the
    accessor of [Object.prototype]?  A data property of that name on the
    way hides it. *)
Definition proto_accessor_reached (p : Proto) : bool :=
  match p with
  | ObjectPrototype => true
  | NullPrototype => false
  | ValuePrototype (JObj fields) =>
      negb (existsb (fun kv => String.eqb kv.1 "__proto__") fields)
  | ValuePrototype _ => true
  end.

(** [obj[key] = value].  An own property is overwritten; a fresh key
    becomes an own property, except ["__proto__"] when the inherited
    accessor is reached: the setter relinks the prototype for an object or
    [null] and ignores every other value. *)
Definition assign (o : JSObject) (key : string) (value : JSValue) : JSObject :=
  match props o !! key with
  | Some _ => {| props := <[key := value]> (props o); proto := proto o |}
  | None =>
      if String.eqb key "__proto__" && proto_accessor_reached (proto o) then
        match value with
        | JObj _ | JArr _ => {| props := props o; proto := ValuePrototype value |}
        | JNull => {| props := props o; proto := NullPrototype |}
        | _ => o
        end
      else {| props := <[key := value]> (props o); proto := proto o |}
  end.

(** The configuration file as the store meets it. *)
Inductive ConfigFile : Type :=
| NoFile                        (* [fs.existsSync] is false *)
| Unreadable                    (* [fs.readFileSync] throws *)
| Malformed (data : string)     (* [JSON.parse] throws on the text *)
| Document (loaded : JSValue).  (* the text parses to [loaded] *)

Record Disk : Type := mkDisk {
  file : ConfigFile;
  writable : bool      (* [mkdirSync] and [writeFileSync] succeed *)
}.

(** [class ConfigManager]: the instance fields, with the file system the
    methods act on. *)
Record ConfigManager : Type := mkManager {
  configPath : string;
  config : JSObject;
  disk : Disk
}.

Definition with_config (cm : ConfigManager) (c : JSObject) : ConfigManager :=
  {| configPath := configPath cm; config := c; disk := disk cm |}.

(** [load()]: the state afterwards; the method returns [this.config] and
    never throws. *)
Definition load (cm : ConfigManager) : ConfigManager :=
  match file (disk cm) with
  | NoFile => cm
  | Unreadable => with_config cm (literal DEFAULT_CONFIG)
  | Malformed _ => with_config cm (literal DEFAULT_CONFIG)
  | Document loaded => with_config cm (literal (spread_over DEFAULT_CONFIG loaded))
  end.

(** [constructor()] *)
Definition new (path : string) (d : Disk) : ConfigManager :=
  load {| configPath := path; config := literal DEFAULT_CONFIG; disk := d |}.

(** [save()]: writes the document when the disk takes it, and says whether
    it did. *)
Definition save (cm : ConfigManager) : ConfigManager * bool :=
  if writable (disk cm) then
    ({| configPath := configPath cm;
        config := config cm;
        disk := {| file := Document (jsonify (JObj (map_to_list (props (config cm)))));
                   writable := true |} |}, true)
  else (cm, false).

(** The first argument of [set]: a property name or, for a bulk update, an
    object ([typeof key === 'object'], which includes [null]). *)
Inductive SetKey : Type :=
| Name (key : string)
| Bulk (updates : JSValue).

(** [set(key, value)] *)
Definition set (cm : ConfigManager) (key : SetKey) (value : JSValue)
    : ConfigManager * bool :=
  match key with
  | Bulk updates =>
      save (with_config cm (literal (spread_over (props (config cm)) updates)))
  | Name k => save (with_config cm (assign (config cm) k value))
  end.

(** What [get] hands back. *)
Inductive GetResult : Type :=
| Value (v : JSValue)            (* an own property *)
| Inherited (key : string) (p : Proto)
                                 (* no own property: the prototype chain decides *)
| Whole (c : JSObject).          (* the configuration object itself *)

(** [get(key)]: [key ? this.config[key] : this.config]; a missing argument
    and the empty string are both falsy. *)
Definition get (cm : ConfigManager) (key : option string) : GetResult :=
  match key with
  | None => Whole (config cm)
  | Some "" => Whole (config cm)
  | Some k =>
      match props (config cm) !! k with
      | Some v => Value v
      | None => Inherited k (proto (config cm))
      end
  end.

(** [reset()] *)
Definition reset (cm : ConfigManager) : ConfigManager * bool :=
  save (with_config cm (literal DEFAULT_CONFIG)).

(** [getAll()]: a fresh copy of the own properties. *)
Definition getAll (cm : ConfigManager) : gmap string JSValue :=
  props (config cm).

End Config.

(** ** URL policy: [rewriteUmbrelURL] *)

Module Policy.

(** The getters of a [URL] object that the policy reads. *)
Record URL : Type := mkURL {
  protocol : string;   (* scheme with its colon, ["http:"] *)
  hostname : string;
  port : string;       (* [""] when absent or the scheme's default *)
  pathname : string;
  search : string;     (* [""] or ["?..."] *)
  hash : string        (* [""] or ["#..."] *)
}.

(** [\d] *)
Definition is_digit (c : ascii) : bool :=
  Nat.leb 48 (nat_of_ascii c) && Nat.leb (nat_of_ascii c) 57.

(** The rest of [s] after its longest run of leading digits. *)
Fixpoint skip_digits (s : string) : string :=
  match s with
  | String c r => if is_digit c then skip_digits r else s
  | EmptyString => EmptyString
  end.

(** The rest of [s] after the literal [p], when [s] starts with it. *)
Fixpoint strip_prefix (p s : string) : option string :=
  match p, s with
  | EmptyString, _ => Some s
  | String a p', String b s' =>
      if Ascii.eqb a b then strip_prefix p' s' else None
  | String _ _, EmptyString => None
  end.

(** [/^10\.21\.\d+\.\d+$/.test(host)] *)
Definition isDockerHost (host : string) : bool :=
  match strip_prefix "10.21." host with
  | None => false
  | Some r =>
      match skip_digits r with
      | String "." r2 =>
          negb (String.eqb (skip_digits r) r)
          && negb (String.eqb r2 "")
          && String.eqb (skip_digits r2) ""
      | _ => false
      end
  end.

(** [parsed.hostname === 'localhost' || parsed.hostname === '127.0.0.1'] *)
Definition isLoopbackHost (host : string) : bool :=
  String.eqb host "localhost" || String.eqb host "127.0.0.1".

(** [parsed.port || 80] inside the template literal. *)
Definition portOr80 (p : string) : string :=
  if String.eqb p "" then "80" else p.

(** The template literal of both rewriting branches. *)
Definition rebuilt (parsed : URL) (baseHost : string) : string :=
  protocol parsed +:+ "//" +:+ baseHost +:+ ":" +:+ portOr80 (port parsed)
  +:+ pathname parsed +:+ search parsed +:+ hash parsed.

Section Rewrite.

(** [new URL(s)] of the platform: [None] when the constructor throws. *)
Variable URL_new : string -> option URL.

(** [cliConfig.url] *)
Variable cliUrl : string.

(** [rewriteUmbrelURL(url)]: any exception inside the [try] block leads
    to the final [return url]. *)
Definition rewriteUmbrelURL (url : string) : string :=
  match URL_new url with
  | None => url
  | Some parsed =>
      if isDockerHost (hostname parsed) then
        match URL_new cliUrl with
        | None => url
        | Some base => rebuilt parsed (hostname base)
        end
      else if isLoopbackHost (hostname parsed) then
        match URL_new cliUrl with
        | None => url
        | Some base => rebuilt parsed (hostname base)
        end
      else url
  end.

End Rewrite.

(** Values of [new URL(s)] on the addresses of the worked examples below;
    a string outside this table is not an example. *)
Definition URL_examples (s : string) : option URL :=
  if String.eqb s "http://umbrel.local" then
    Some (mkURL "http:" "umbrel.local" "" "/" "" "")
  else if String.eqb s "http://umbrel.local:8080" then
    Some (mkURL "http:" "umbrel.local" "8080" "/" "" "")
  else if String.eqb s "http://10.21.0.5:3000/app/settings" then
    Some (mkURL "http:" "10.21.0.5" "3000" "/app/settings" "" "")
  else if String.eqb s "http://10.21.0.5:3000/app/settings?tab=1#top" then
    Some (mkURL "http:" "10.21.0.5" "3000" "/app/settings" "?tab=1" "#top")
  else if String.eqb s "http://localhost/status" then
    Some (mkURL "http:" "localhost" "" "/status" "" "")
  else if String.eqb s "https://10.21.0.5/app" then
    Some (mkURL "https:" "10.21.0.5" "" "/app" "" "")
  else if String.eqb s "https://10.21.0.5:443/app" then
    Some (mkURL "https:" "10.21.0.5" "" "/app" "" "")  (* default port: [port] is empty *)
  else if String.eqb s "http://umbrel.local/apps" then
    Some (mkURL "http:" "umbrel.local" "" "/apps" "" "")
  else if String.eqb s "https://example.com/docs?q=1" then
    Some (mkURL "https:" "example.com" "" "/docs" "?q=1" "")
  else if String.eqb s "not a url" then None    (* the constructor throws *)
  else if String.eqb s "umbrel.local" then None (* no scheme: it throws *)
  else None.

End Policy.

(** ** The browser shell: session state, overlays, network check, IPC *)

Module Kiosk.

(** [const DEFAULT_URL] *)
Definition DEFAULT_URL : string := "http://umbrel.local".

(** The object [parseArgs] returns. *)
Record CliConfig : Type := mkCli {
  url : string;
  insecure : bool;
  devMode : bool
}.

(** [s.startsWith(p)] *)
Definition startsWith (s p : string) : bool := String.prefix p s.

(** [url.startsWith('http://') || url.startsWith('https://')] *)
Definition isHttpURL (u : string) : bool :=
  startsWith u "http://" || startsWith u "https://".

(** One turn of the loop in [parseArgs]. *)
Definition parseArg (c : CliConfig) (arg : string) : CliConfig :=
  if startsWith arg "--url=" then
    {| url := default arg (Policy.strip_prefix "--url=" arg);
       insecure := insecure c; devMode := devMode c |}
  else if isHttpURL arg then
    {| url := arg; insecure := insecure c; devMode := devMode c |}
  else if String.eqb arg "--insecure" then
    {| url := url c; insecure := true; devMode := devMode c |}
  else if String.eqb arg "--dev" then
    {| url := url c; insecure := insecure c; devMode := true |}
  else c.

(** [parseArgs()] over [process.argv.slice(2)]. *)
Definition parseArgs (args : list string) : CliConfig :=
  fold_left parseArg args {| url := DEFAULT_URL; insecure := false; devMode := false |}.

(** Chromium's net error list, as far as it matters here: the codes that
    [did-fail-load] reports in [errorCode]. *)
Inductive NetError : Type :=
| ERR_ABORTED
| ERR_TIMED_OUT
| ERR_CONNECTION_CLOSED
| ERR_CONNECTION_RESET
| ERR_CONNECTION_REFUSED
| ERR_CONNECTION_ABORTED
| ERR_CONNECTION_FAILED
| ERR_NAME_NOT_RESOLVED
| ERR_INTERNET_DISCONNECTED
| ERR_CONNECTION_TIMED_OUT
| ERR_CERT_AUTHORITY_INVALID.

Definition errorCodeOf (e : NetError) : Z :=
  match e with
  | ERR_ABORTED => -3
  | ERR_TIMED_OUT => -7
  | ERR_CONNECTION_CLOSED => -100
  | ERR_CONNECTION_RESET => -101
  | ERR_CONNECTION_REFUSED => -102
  | ERR_CONNECTION_ABORTED => -103
  | ERR_CONNECTION_FAILED => -104
  | ERR_NAME_NOT_RESOLVED => -105
  | ERR_INTERNET_DISCONNECTED => -106
  | ERR_CONNECTION_TIMED_OUT => -118
  | ERR_CERT_AUTHORITY_INVALID => -202
  end%Z.

(** The condition of the [did-fail-load] handler:
    [errorCode === -106 || errorCode === -105 || errorCode === -102 ||
     errorCode === -101]. *)
Definition isNetworkErrorCode (errorCode : Z) : bool :=
  (errorCode =? -106)%Z || (errorCode =? -105)%Z
  || (errorCode =? -102)%Z || (errorCode =? -101)%Z.

(** The network class in the words of the specification: connection
    refused, connection reset, timeout, name not resolved. *)
Definition networkClassAsSpecified (e : NetError) : bool :=
  match e with
  | ERR_CONNECTION_REFUSED | ERR_CONNECTION_RESET
  | ERR_TIMED_OUT | ERR_CONNECTION_TIMED_OUT
  | ERR_NAME_NOT_RESOLVED => true
  | _ => false
  end.

(** The element with id [umbrel-kiosk-overlay] that a script put into the
    page. *)
Inductive Overlay : Type :=
| NetworkErrorOverlay
| LoadErrorOverlay (text : string)
| UnresponsiveOverlay.

(** Calls the main process makes on the window and its contents. *)
Inductive Call : Type :=
| LoadURL (u : string)
| LoadFile (name : string)
| PreventDefault
| HistoryGoBack
| HistoryGoForward
| InjectNavPanel
| InjectSoftwareCursor
| InjectSettingsPanel
| CloseSettingsPanel
| ClearCache
| Show
| SetFullScreen
| Focus
| Restore.

(** What [webContents.navigationHistory] answers when a handler asks. *)
Record NavigationHistory : Type := mkNav {
  canGoBack : bool;
  canGoForward : bool;
  activeIndex : Z;
  entries : list string      (* [getEntryAtIndex(i).url] *)
}.

(** Answer of the window-open handler. *)
Inductive WindowOpenAction : Type := Allow | Deny.

(** The module variables of [main.js] and, after them, the state of the
    window they steer. *)
Record Session : Type := mkSession {
  targetURL : string;
  currentURL : string;
  isOnline : bool;
  networkCheckTimer : option nat;
  isShowingOverlay : bool;
  serviceMenuVisible : bool;
  navPanelVisible : bool;
  appConfig : Config.ConfigManager;
  overlays : list Overlay;   (* overlay elements of the live document *)
  intervals : list nat;      (* interval timers that are running *)
  timerSeq : nat;            (* next timer handle *)
  probes : nat;              (* probe requests awaiting their answer *)
  calls : list Call;         (* calls made so far, oldest first *)
  windows : nat              (* top-level windows *)
}.

Definition set_targetURL (v : string) (s : Session) : Session :=
  mkSession v (currentURL s) (isOnline s) (networkCheckTimer s) (isShowingOverlay s) (serviceMenuVisible s) (navPanelVisible s) (appConfig s) (overlays s) (intervals s) (timerSeq s) (probes s) (calls s) (windows s).
Definition set_currentURL (v : string) (s : Session) : Session :=
  mkSession (targetURL s) v (isOnline s) (networkCheckTimer s) (isShowingOverlay s) (serviceMenuVisible s) (navPanelVisible s) (appConfig s) (overlays s) (intervals s) (timerSeq s) (probes s) (calls s) (windows s).
Definition set_isOnline (v : bool) (s : Session) : Session :=
  mkSession (targetURL s) (currentURL s) v (networkCheckTimer s) (isShowingOverlay s) (serviceMenuVisible s) (navPanelVisible s) (appConfig s) (overlays s) (intervals s) (timerSeq s) (probes s) (calls s) (windows s).
Definition set_networkCheckTimer (v : option nat) (s : Session) : Session :=
  mkSession (targetURL s) (currentURL s) (isOnline s) v (isShowingOverlay s) (serviceMenuVisible s) (navPanelVisible s) (appConfig s) (overlays s) (intervals s) (timerSeq s) (probes s) (calls s) (windows s).
Definition set_isShowingOverlay (v : bool) (s : Session) : Session :=
  mkSession (targetURL s) (currentURL s) (isOnline s) (networkCheckTimer s) v (serviceMenuVisible s) (navPanelVisible s) (appConfig s) (overlays s) (intervals s) (timerSeq s) (probes s) (calls s) (windows s).
Definition set_serviceMenuVisible (v : bool) (s : Session) : Session :=
  mkSession (targetURL s) (currentURL s) (isOnline s) (networkCheckTimer s) (isShowingOverlay s) v (navPanelVisible s) (appConfig s) (overlays s) (intervals s) (timerSeq s) (probes s) (calls s) (windows s).
Definition set_navPanelVisible (v : bool) (s : Session) : Session :=
  mkSession (targetURL s) (currentURL s) (isOnline s) (networkCheckTimer s) (isShowingOverlay s) (serviceMenuVisible s) v (appConfig s) (overlays s) (intervals s) (timerSeq s) (probes s) (calls s) (windows s).
Definition set_appConfig (v : Config.ConfigManager) (s : Session) : Session :=
  mkSession (targetURL s) (currentURL s) (isOnline s) (networkCheckTimer s) (isShowingOverlay s) (serviceMenuVisible s) (navPanelVisible s) v (overlays s) (intervals s) (timerSeq s) (probes s) (calls s) (windows s).
Definition set_overlays (v : list Overlay) (s : Session) : Session :=
  mkSession (targetURL s) (currentURL s) (isOnline s) (networkCheckTimer s) (isShowingOverlay s) (serviceMenuVisible s) (navPanelVisible s) (appConfig s) v (intervals s) (timerSeq s) (probes s) (calls s) (windows s).
Definition set_intervals (v : list nat) (s : Session) : Session :=
  mkSession (targetURL s) (currentURL s) (isOnline s) (networkCheckTimer s) (isShowingOverlay s) (serviceMenuVisible s) (navPanelVisible s) (appConfig s) (overlays s) v (timerSeq s) (probes s) (calls s) (windows s).
Definition set_timerSeq (v : nat) (s : Session) : Session :=
  mkSession (targetURL s) (currentURL s) (isOnline s) (networkCheckTimer s) (isShowingOverlay s) (serviceMenuVisible s) (navPanelVisible s) (appConfig s) (overlays s) (intervals s) v (probes s) (calls s) (windows s).
Definition set_probes (v : nat) (s : Session) : Session :=
  mkSession (targetURL s) (currentURL s) (isOnline s) (networkCheckTimer s) (isShowingOverlay s) (serviceMenuVisible s) (navPanelVisible s) (appConfig s) (overlays s) (intervals s) (timerSeq s) v (calls s) (windows s).
Definition set_calls (v : list Call) (s : Session) : Session :=
  mkSession (targetURL s) (currentURL s) (isOnline s) (networkCheckTimer s) (isShowingOverlay s) (serviceMenuVisible s) (navPanelVisible s) (appConfig s) (overlays s) (intervals s) (timerSeq s) (probes s) v (windows s).
Definition set_windows (v : nat) (s : Session) : Session :=
  mkSession (targetURL s) (currentURL s) (isOnline s) (networkCheckTimer s) (isShowingOverlay s) (serviceMenuVisible s) (navPanelVisible s) (appConfig s) (overlays s) (intervals s) (timerSeq s) (probes s) (calls s) v.

(** A call on the window, appended to the log. *)
Definition call (c : Call) (s : Session) : Session :=
  set_calls (calls s ++ [c]) s.

(** Scripts over the overlay elements.  [getElementById] finds the first
    element with the id, [appendChild] adds at the end. *)
Definition injectScript (o : Overlay) (dom : list Overlay) : list Overlay :=
  match dom with
  | [] => [o]           (* no element yet: create and append *)
  | _ :: _ => dom       (* [if (document.getElementById(..)) return;] *)
  end.

Definition replaceScript (o : Overlay) (dom : list Overlay) : list Overlay :=
  tail dom ++ [o].      (* [if (existing) existing.remove();] then append *)

Definition removeScript (dom : list Overlay) : list Overlay :=
  tail dom.             (* [if (overlay) overlay.remove();] *)

(** [webContents.executeJavaScript(script).catch(onReject)]: the page runs
    the script when [ok], otherwise the promise rejects. *)
Definition executeJavaScript (ok : bool) (script : list Overlay -> list Overlay)
    (onReject : Session -> Session) (s : Session) : Session :=
  if ok then set_overlays (script (overlays s)) s else onReject s.

(** [function showNetworkError()] *)
Definition showNetworkError (ok : bool) (s : Session) : Session :=
  if isShowingOverlay s then s
  else executeJavaScript ok (injectScript NetworkErrorOverlay)
         (call (LoadFile "error.html")) (set_isShowingOverlay true s).

(** [description || '...'] in the load-error markup. *)
Definition loadErrorText (description : string) : string :=
  if String.eqb description "" then "Не удалось загрузить страницу"
  else description.

(** [function showLoadError(description)] *)
Definition showLoadError (ok : bool) (description : string) (s : Session) : Session :=
  if isShowingOverlay s then s
  else executeJavaScript ok (injectScript (LoadErrorOverlay (loadErrorText description)))
         (call (LoadFile "error.html")) (set_isShowingOverlay true s).

(** [function showCrashOverlay()] *)
Definition showCrashOverlay (s : Session) : Session :=
  call (LoadFile "crash.html") (set_isShowingOverlay true s).

(** [function showUnresponsiveOverlay()] *)
Definition showUnresponsiveOverlay (ok : bool) (s : Session) : Session :=
  executeJavaScript ok (replaceScript UnresponsiveOverlay) (fun r => r)
    (set_isShowingOverlay true s).

(** [function hideOverlay()] *)
Definition hideOverlay (ok : bool) (s : Session) : Session :=
  executeJavaScript ok removeScript (fun r => r) (set_isShowingOverlay false s).

(** [function startNetworkCheck()]: [setInterval] hands out a fresh timer. *)
Definition startNetworkCheck (s : Session) : Session :=
  match networkCheckTimer s with
  | Some _ => s
  | None =>
      set_networkCheckTimer (Some (timerSeq s))
        (set_intervals (intervals s ++ [timerSeq s])
           (set_timerSeq (S (timerSeq s)) s))
  end.

(** [clearInterval(t)] *)
Definition clearInterval (t : nat) (s : Session) : Session :=
  set_intervals (filter (fun i => i ≠ t) (intervals s)) s.

(** [function stopNetworkCheck()] *)
Definition stopNetworkCheck (s : Session) : Session :=
  match networkCheckTimer s with
  | Some t => set_networkCheckTimer None (clearInterval t s)
  | None => s
  end.

(** [function reloadPage()] *)
Definition reloadPage (s : Session) : Session :=
  call (LoadURL (currentURL s)) s.

(** [function hideServiceMenu()]; its script touches the menu element only. *)
Definition hideServiceMenu (s : Session) : Session :=
  set_serviceMenuVisible false s.

(** [function toggleServiceMenu()] *)
Definition toggleServiceMenu (s : Session) : Session :=
  set_serviceMenuVisible (negb (serviceMenuVisible s)) s.

(** The body of the interval callback after [await]: the probe answered
    with [response]. *)
Definition probeAnswered (ok : bool) (response : bool) (s : Session) : Session :=
  if response then
    reloadPage (hideOverlay ok (stopNetworkCheck (set_isOnline true s)))
  else s.

(** The guard of the [kiosk:goBack] handler. *)
Definition backAllowed (nav : NavigationHistory) : bool :=
  canGoBack nav
  && (0 <=? activeIndex nav - 1)%Z
  && match entries nav !! Z.to_nat (activeIndex nav - 1) with
     | Some u => negb (String.eqb u "") && negb (startsWith u "file://")
     | None => false
     end.

(** Everything the shell reacts to: engine events, timers falling due,
    bridge messages and shortcuts. *)
Inductive Event : Type :=
| StartupTimer
| WindowOpen (u : string)
| WillNavigate (u : string)
| DidNavigate (u : string)
| DidNavigateInPage (u : string)
| WillRedirect (u : string)
| DidFailLoad (errorCode : Z) (errorDescription validatedURL : string)
| Crashed
| CrashTimer
| Unresponsive
| Responsive
| NetworkCheckTick
| ProbeSettled (response : bool)
| KioskRetry
| KioskReload
| KioskNavigate (u : string)
| KioskHideServiceMenu
| KioskGoBack (nav : NavigationHistory)
| KioskGoForward (nav : NavigationHistory)
| KioskGoHome
| KioskToggleNavPanel
| KioskOpenSettings
| KioskCloseSettings
| KioskGetConfig
| KioskSetConfig (key : Config.SetKey) (value : JSValue)
| KioskResetConfig
| KioskClearCache
| ClearCacheTimer
| CertificateError (u error : string)
| ReadyToShow
| CloseRequested
| Blur
| ShortcutReload
| ShortcutServiceMenu
| SecondInstance (minimized : bool)
| BeforeQuit.

Section Handlers.

Variable URL_new : string -> option Policy.URL.
Variable cliConfig : CliConfig.

Definition rewriteUmbrelURL : string -> string :=
  Policy.rewriteUmbrelURL URL_new (url cliConfig).

(** The handler given to [setWindowOpenHandler]: its answer and the
    address its [setImmediate] callback loads. *)
Definition windowOpenHandler (u : string) : WindowOpenAction * string :=
  (Deny, rewriteUmbrelURL u).

(** The engine acting on the answer. *)
Definition openWindow (a : WindowOpenAction) (s : Session) : Session :=
  match a with
  | Allow => set_windows (S (windows s)) s
  | Deny => s
  end.

(** The common body of [will-navigate] and [will-redirect]. *)
Definition willNavigate (u : string) (s : Session) : Session :=
  if String.eqb (rewriteUmbrelURL u) u then
    if isHttpURL u then set_currentURL u s else s
  else call (LoadURL (rewriteUmbrelURL u)) (call PreventDefault s).

(** [did-navigate]: the engine has committed a new document, so the
    elements injected into the old one are gone.  The two injections are
    the ones the handler schedules 500 ms ahead. *)
Definition didNavigate (ok : bool) (u : string) (s : Session) : Session :=
  let s1 := set_overlays [] s in
  let s2 := if isHttpURL u
            then call InjectSoftwareCursor (call InjectNavPanel (set_currentURL u s1))
            else s1 in
  hideOverlay ok s2.

(** [did-fail-load] *)
Definition didFailLoad (ok : bool) (errorCode : Z) (errorDescription : string)
    (s : Session) : Session :=
  if isNetworkErrorCode errorCode then
    startNetworkCheck (showNetworkError ok (set_isOnline false s))
  else showLoadError ok errorDescription s.

(** [kiosk:setConfig] *)
Definition kioskSetConfig (key : Config.SetKey) (value : JSValue)
    (s : Session) : Session :=
  let s1 := set_appConfig (Config.set (appConfig s) key value).1 s in
  match key with
  | Config.Name k =>
      if String.eqb k "cursorTheme" || String.eqb k "cursorSize" then
        call InjectSoftwareCursor s1
      else if String.eqb k "dockPosition" || String.eqb k "dockSize" then
        call InjectNavPanel s1
      else s1
  | Config.Bulk _ => s1
  end.

(** One event, handled.  [ok] tells whether the page runs the script the
    handler injects. *)
Definition handle (ok : bool) (e : Event) (s : Session) : Session :=
  match e with
  | StartupTimer => call (LoadURL (targetURL s)) s
  | WindowOpen u =>
      let r := windowOpenHandler u in
      openWindow r.1 (call (LoadURL r.2) s)
  | WillNavigate u => willNavigate u s
  | WillRedirect u => willNavigate u s
  | DidNavigate u => didNavigate ok u s
  | DidNavigateInPage u => if isHttpURL u then set_currentURL u s else s
  | DidFailLoad errorCode errorDescription _ =>
      didFailLoad ok errorCode errorDescription s
  | Crashed => showCrashOverlay (set_overlays [] s)
  | CrashTimer => reloadPage s
  | Unresponsive => showUnresponsiveOverlay ok s
  | Responsive => hideOverlay ok s
  | NetworkCheckTick =>
      match intervals s with
      | [] => s
      | _ :: _ => set_probes (S (probes s)) s
      end
  | ProbeSettled response =>
      match probes s with
      | O => s
      | S n => probeAnswered ok response (set_probes n s)
      end
  | KioskRetry => reloadPage (hideOverlay ok s)
  | KioskReload => reloadPage (hideServiceMenu s)
  | KioskNavigate u =>
      call (LoadURL u) (set_currentURL u (set_targetURL u (hideServiceMenu s)))
  | KioskHideServiceMenu => hideServiceMenu s
  | KioskGoBack nav => if backAllowed nav then call HistoryGoBack s else s
  | KioskGoForward nav => if canGoForward nav then call HistoryGoForward s else s
  | KioskGoHome => call (LoadURL (targetURL s)) s
  | KioskToggleNavPanel => set_navPanelVisible (negb (navPanelVisible s)) s
  | KioskOpenSettings => call InjectSettingsPanel s
  | KioskCloseSettings => call CloseSettingsPanel s
  | KioskGetConfig => s      (* answers with [appConfig.getAll()] *)
  | KioskSetConfig key value => kioskSetConfig key value s
  | KioskResetConfig =>
      call InjectSoftwareCursor (set_appConfig (Config.reset (appConfig s)).1 s)
  | KioskClearCache => call ClearCache s   (* [ClearCacheTimer] follows *)
  | ClearCacheTimer => reloadPage s
  | CertificateError _ _ =>
      if insecure cliConfig then call PreventDefault s else s
  | ReadyToShow =>
      if devMode cliConfig then call Show s else call SetFullScreen (call Show s)
  | CloseRequested =>      (* in dev mode the window closes and the run ends *)
      if devMode cliConfig then s else call PreventDefault s
  | Blur => if devMode cliConfig then s else call Focus s
  | ShortcutReload => if devMode cliConfig then s else reloadPage s
  | ShortcutServiceMenu => toggleServiceMenu s
  | SecondInstance minimized =>
      if minimized then call Focus (call Restore s) else call Focus s
  | BeforeQuit => stopNetworkCheck s
  end.

(** A run of the shell: events in order of arrival. *)
Definition run (trace : list (bool * Event)) (s : Session) : Session :=
  fold_left (fun st oe => handle oe.1 oe.2 st) trace s.

(** The state right after [createWindow()]. *)
Definition start (cm : Config.ConfigManager) : Session :=
  {| targetURL := url cliConfig;
     currentURL := url cliConfig;
     isOnline := true;
     networkCheckTimer := None;
     isShowingOverlay := false;
     serviceMenuVisible := false;
     navPanelVisible := true;
     appConfig := cm;
     overlays := [];
     intervals := [];
     timerSeq := 0;
     probes := 0;
     calls := [LoadFile "loading.html"];
     windows := 1 |}.

End Handlers.

End Kiosk.

(** ** Vocabulary of the properties *)

(** A non-empty run of decimal digits: what [\d+] matches as a whole. *)
Fixpoint all_digits (s : string) : bool :=
  match s with
  | EmptyString => true
  | String c r => Policy.is_digit c && all_digits r
  end.

Definition digit_run (s : string) : Prop := s ≠ "" ∧ all_digits s = true.

(** The address a navigation event of the engine carries. *)
Definition navigationURL (e : Kiosk.Event) : option string :=
  match e with
  | Kiosk.WillNavigate u | Kiosk.DidNavigate u
  | Kiosk.DidNavigateInPage u | Kiosk.WillRedirect u => Some u
  | _ => None
  end.

(** Events that report a committed navigation. *)
Definition isCommit (e : Kiosk.Event) : bool :=
  match e with
  | Kiosk.DidNavigate _ | Kiosk.DidNavigateInPage _ => true
  | _ => false
  end.

(** Events of the network check: the interval falling due and a probe
    coming back. *)
Definition isProbeEvent (e : Kiosk.Event) : bool :=
  match e with
  | Kiosk.NetworkCheckTick | Kiosk.ProbeSettled _ => true
  | _ => false
  end.

(** The bridge's [navigate(url)] message. *)
Definition isKioskNavigate (e : Kiosk.Event) : bool :=
  match e with
  | Kiosk.KioskNavigate _ => true
  | _ => false
  end.

(** [navigate(url)] of the preload bridge: the message goes out for a
    non-empty [url] that starts with [http://] or [https://], and not at
    all otherwise. *)
Definition bridgeNavigate (u : string) : option Kiosk.Event :=
  if negb (String.eqb u "") && Kiosk.isHttpURL u
  then Some (Kiosk.KioskNavigate u)
  else None.

(** The running interval timers are exactly the one the shell remembers,
    and the page holds at most one overlay element. *)
Definition timers_tracked (s : Kiosk.Session) : Prop :=
  Kiosk.intervals s =
    match Kiosk.networkCheckTimer s with
    | Some t => [t]
    | None => []
    end.

Definition one_overlay (s : Kiosk.Session) : Prop :=
  (List.length (Kiosk.overlays s) ≤ 1)%nat.

Definition shell_invariant (s : Kiosk.Session) : Prop :=
  timers_tracked s ∧ one_overlay s.

(** States the shell can be in: those some run reaches from the start. *)
Definition reachable (URL_new : string → option Policy.URL)
    (cliConfig : Kiosk.CliConfig) (s : Kiosk.Session) : Prop :=
  ∃ cm trace, s = Kiosk.run URL_new cliConfig trace (Kiosk.start cliConfig cm).

(** Sample data of the worked examples. *)
Definition sample_disk : Config.Disk :=
  {| Config.file := Config.NoFile; Config.writable := true |}.

Definition sample_manager : Config.ConfigManager :=
  Config.new "/opt/umbrel-kiosk/config.json" sample_disk.

Definition unreadable_manager : Config.ConfigManager :=
  {| Config.configPath := "/opt/umbrel-kiosk/config.json";
     Config.config := Config.assign (Config.literal Config.DEFAULT_CONFIG)
                        "cursorTheme" (JStr "light");
     Config.disk := {| Config.file := Config.Unreadable; Config.writable := false |} |}.

Definition malformed_manager : Config.ConfigManager :=
  {| Config.configPath := "/opt/umbrel-kiosk/config.json";
     Config.config := Config.assign (Config.literal Config.DEFAULT_CONFIG)
                        "dockSize" (JStr "large");
     Config.disk := {| Config.file := Config.Malformed "{ cursorTheme: ";
                       Config.writable := true |} |}.

Definition sample_cli : Kiosk.CliConfig := Kiosk.parseArgs [].

Definition sample_start : Kiosk.Session :=
  Kiosk.start sample_cli sample_manager.

Definition sample_run (trace : list (bool * Kiosk.Event)) : Kiosk.Session :=
  Kiosk.run Policy.URL_examples sample_cli trace sample_start.

(** ** Vocabulary of the further properties *)

(** The value a document gives for [k]: that of its last field named [k]. *)
Fixpoint lastField (k : string) (fields : list (string * JSValue))
    : option JSValue :=
  match fields with
  | [] => None
  | (k', v) :: r =>
      match lastField k r with
      | Some w => Some w
      | None => if String.eqb k' k then Some v else None
      end
  end.

(** The fields [JSON.stringify] writes for an object, as [JSON.parse] reads
    them back: the inner loop of [jsonify]. *)
Fixpoint keepFields (l : list (string * JSValue)) : list (string * JSValue) :=
  match l with
  | [] => []
  | (k, JUndefined) :: r => keepFields r
  | (k, x) :: r => (k, jsonify x) :: keepFields r
  end.

(** Values that come back from the file as they went in. *)
Definition json_stable (v : JSValue) : Prop :=
  v ≠ JUndefined ∧ jsonify v = v.

(** The URL an argument of the command line carries, if it carries one. *)
Definition urlOfArg (arg : string) : option string :=
  if Kiosk.startsWith arg "--url=" then
    Some (default arg (Policy.strip_prefix "--url=" arg))
  else if Kiosk.isHttpURL arg then Some arg
  else None.

(** The two events whose handlers call [stopNetworkCheck]. *)
Definition stopsNetworkCheck (e : Kiosk.Event) : bool :=
  match e with
  | Kiosk.ProbeSettled true | Kiosk.BeforeQuit => true
  | _ => false
  end.

(** Events that cannot assign [currentURL]: everything but [navigate] and
    the navigation events that carry an http(s) address. *)
Definition keepsCurrentURL (e : Kiosk.Event) : bool :=
  match e with
  | Kiosk.KioskNavigate _ => false
  | Kiosk.WillNavigate u | Kiosk.DidNavigate u
  | Kiosk.DidNavigateInPage u | Kiosk.WillRedirect u => negb (Kiosk.isHttpURL u)
  | _ => true
  end.

(** [navigate] messages are asked to carry an http(s) address. *)
Definition navigateIsHttp (e : Kiosk.Event) : bool :=
  match e with
  | Kiosk.KioskNavigate u => Kiosk.isHttpURL u
  | _ => true
  end.

(** Runs in which the page executes every injected script. *)
Definition scriptsRun (trace : list (bool * Kiosk.Event)) : bool :=
  forallb fst trace.

(** No overlay element without the flag. *)
Definition overlay_flagged (s : Kiosk.Session) : Prop :=
  Kiosk.isShowingOverlay s = false → Kiosk.overlays s = [].

(** A running network check means the shell counts as offline. *)
Definition probing_offline (s : Kiosk.Session) : Prop :=
  is_Some (Kiosk.networkCheckTimer s) → Kiosk.isOnline s = false.

(** Further sample data. *)
Definition document_manager : Config.ConfigManager :=
  {| Config.configPath := "/opt/umbrel-kiosk/config.json";
     Config.config := Config.literal Config.DEFAULT_CONFIG;
     Config.disk :=
       {| Config.file :=
            Config.Document
              (JObj [("cursorTheme", JStr "light");
                     ("kioskName", JStr "hall");
                     ("cursorTheme", JStr "system")]);
          Config.writable := true |} |}.

Definition crash_page : string := "file:///usr/lib/umbrel-kiosk/src/crash.html".

(** Proof steps shared by the facts about [Kiosk.handle]: open the
    handlers, then split on every test whose condition is a plain term. *)
Ltac handlers :=
  unfold Kiosk.handle, Kiosk.didNavigate, Kiosk.didFailLoad,
    Kiosk.willNavigate, Kiosk.kioskSetConfig, Kiosk.probeAnswered,
    Kiosk.showNetworkError, Kiosk.showLoadError, Kiosk.showCrashOverlay,
    Kiosk.showUnresponsiveOverlay, Kiosk.hideOverlay, Kiosk.executeJavaScript,
    Kiosk.startNetworkCheck, Kiosk.stopNetworkCheck, Kiosk.clearInterval,
    Kiosk.reloadPage, Kiosk.hideServiceMenu, Kiosk.toggleServiceMenu,
    Kiosk.openWindow, Kiosk.windowOpenHandler, Kiosk.call.

Ltac atomic b :=
  lazymatch b with
  | context [if _ then _ else _] => fail
  | context [match _ with _ => _ end] => fail
  | _ => idtac
  end.

Ltac branches :=
  repeat (match goal with
          | |- context [if ?b then _ else _] => atomic b; destruct b eqn:?
          | |- context [match ?x with _ => _ end] => atomic x; destruct x eqn:?
          end; simpl).

(** * Properties *)

(** ** Configuration store *)

Section ConfigFacts.

Import Config.

Lemma save_keeps_config cm : config (save cm).1 = config cm.
Proof. unfold save. by destruct (writable (disk cm)). Qed.

Lemma assign_own o key value :
  key ≠ "__proto__" → props (assign o key value) !! key = Some value.
Proof.
  intros Hne. unfold assign.
  destruct (props o !! key) eqn:Hown; simpl.
  - apply lookup_insert_eq.
  - destruct (String.eqb_spec key "__proto__") as [->|_]; [done|].
    simpl. apply lookup_insert_eq.
Qed.

Lemma get_own cm key v :
  key ≠ "" → props (config cm) !! key = Some v → get cm (Some key) = Value v.
Proof.
  intros Hne Hv. unfold get. destruct key as [|c r]; [done|]. by rewrite Hv.
Qed.

(** C8, as the code has it: for every property name other than the empty
    string and ["__proto__"], [set(key, value)] followed by [get(key)]
    returns [value], whether or not the write to disk succeeded; and
    [reset()] followed by [getAll()] returns exactly the default
    record. *)
Theorem set_get_reset_round_trip (cm : ConfigManager) (key : string)
    (value : JSValue) :
  key ≠ "" → key ≠ "__proto__" →
  get (set cm (Name key) value).1 (Some key) = Value value
  ∧ getAll (reset cm).1 = DEFAULT_CONFIG.
Proof.
  intros Hempty Hproto. split.
  - apply get_own; [done|]. unfold set. rewrite save_keeps_config. simpl.
    by apply assign_own.
  - unfold getAll, reset. by rewrite save_keeps_config.
Qed.

Lemma set_get_reset_round_trip_witness :
  get (set sample_manager (Name "dockSize") (JStr "large")).1 (Some "dockSize")
    = Value (JStr "large")
  ∧ getAll (reset sample_manager).1 = DEFAULT_CONFIG.
Proof.
  apply (set_get_reset_round_trip sample_manager "dockSize" (JStr "large"));
    discriminate.
Defined.

(** C8 as worded fails on two keys: the empty string is falsy, so
    [get("")] hands back the whole configuration object; and
    ["__proto__"] with a primitive value runs the inherited setter, which
    stores nothing. *)
Lemma set_get_falsy_key_counterexample :
  get (set sample_manager (Name "") (JStr "x")).1 (Some "")
    = Whole (config (set sample_manager (Name "") (JStr "x")).1)
  ∧ get (set sample_manager (Name "") (JStr "x")).1 (Some "") ≠ Value (JStr "x")
  ∧ get (set sample_manager (Name "__proto__") (JStr "x")).1 (Some "__proto__")
    = Inherited "__proto__" ObjectPrototype
  ∧ get (set sample_manager (Name "__proto__") (JStr "x")).1 (Some "__proto__")
    ≠ Value (JStr "x").
Proof.
  assert (Hp : get (set sample_manager (Name "__proto__") (JStr "x")).1
                 (Some "__proto__") = Inherited "__proto__" ObjectPrototype)
    by (vm_compute; reflexivity).
  repeat split; first [done | rewrite Hp; discriminate].
Qed.

(** C10: when the configuration file exists but reading it or parsing it
    fails, [load] ends normally with the in-memory configuration equal to
    the default record, nothing of the file or of the earlier
    configuration merged in; the constructor, which calls [load], yields a
    manager holding the defaults, and the file is left as it was. *)
Theorem load_failure_falls_back_to_defaults (cm : ConfigManager) :
  (file (disk cm) = Unreadable ∨ ∃ data, file (disk cm) = Malformed data) →
  config (load cm) = literal DEFAULT_CONFIG
  ∧ getAll (load cm) = DEFAULT_CONFIG
  ∧ disk (load cm) = disk cm
  ∧ config (new (configPath cm) (disk cm)) = literal DEFAULT_CONFIG
  ∧ ∀ key v, get (load cm) (Some key) = Value v →
             DEFAULT_CONFIG !! key = Some v.
Proof.
  intros Hfail.
  assert (Hload : load cm = with_config cm (literal DEFAULT_CONFIG)).
  { unfold load. destruct Hfail as [-> | [data ->]]; reflexivity. }
  assert (Hnew : config (new (configPath cm) (disk cm)) = literal DEFAULT_CONFIG).
  { unfold new, load. simpl. destruct Hfail as [-> | [data ->]]; reflexivity. }
  rewrite Hload. repeat split; [exact Hnew|].
  intros key v. unfold get. simpl.
  destruct key as [|c r]; [discriminate|].
  destruct (DEFAULT_CONFIG !! String c r); [congruence | discriminate].
Qed.

Lemma load_failure_falls_back_to_defaults_witness :
  props (config unreadable_manager) !! "cursorTheme" = Some (JStr "light")
  ∧ getAll (load unreadable_manager) = DEFAULT_CONFIG
  ∧ props (config malformed_manager) !! "dockSize" = Some (JStr "large")
  ∧ getAll (load malformed_manager) = DEFAULT_CONFIG.
Proof.
  split; [|split; [|split]].
  - apply assign_own. discriminate.
  - apply (load_failure_falls_back_to_defaults unreadable_manager).
    left. reflexivity.
  - apply assign_own. discriminate.
  - apply (load_failure_falls_back_to_defaults malformed_manager).
    right. eexists. reflexivity.
Defined.

End ConfigFacts.

(** ** URL policy *)

Section PolicyFacts.

Import Policy.

Lemma append_nil r : "" +:+ r = r.
Proof. reflexivity. Qed.

Lemma append_cons c a r : String c a +:+ r = String c (a +:+ r).
Proof. reflexivity. Qed.

Lemma strip_prefix_spec p s r :
  strip_prefix p s = Some r ↔ s = p +:+ r.
Proof.
  revert s. induction p as [|a p IH]; intros s; simpl.
  - rewrite append_nil. split; congruence.
  - rewrite append_cons. destruct s as [|b s].
    + split; discriminate.
    + destruct (Ascii.eqb_spec a b) as [->|Hne].
      * rewrite IH. split; congruence.
      * split; [discriminate | congruence].
Qed.

Lemma skip_digits_decompose s :
  ∃ a, s = a +:+ skip_digits s ∧ all_digits a = true.
Proof.
  induction s as [|c s [a [Hs Ha]]]; simpl.
  - by exists "".
  - destruct (is_digit c) eqn:Hc.
    + exists (String c a). rewrite append_cons. simpl.
      rewrite Hc, Ha. split; [by rewrite <- Hs | done].
    + by exists "".
Qed.

Lemma skip_digits_app a t :
  all_digits a = true → skip_digits (a +:+ t) = skip_digits t.
Proof.
  induction a as [|c a IH]; [done|].
  rewrite append_cons. simpl.
  intros [Hc Ha]%andb_prop. rewrite Hc. auto.
Qed.

Lemma skip_digits_nil s : skip_digits s = "" ↔ all_digits s = true.
Proof.
  induction s as [|c s IH]; simpl; [done|].
  destruct (is_digit c); simpl; [done|]. split; discriminate.
Qed.

(** The host test of the rewrite rule accepts exactly the strings
    [10.21.<digits>.<digits>]. *)
Lemma isDockerHost_spec h :
  isDockerHost h = true ↔
  ∃ a b, digit_run a ∧ digit_run b ∧ h = "10.21." +:+ a +:+ "." +:+ b.
Proof.
  unfold isDockerHost, digit_run. split.
  - destruct (strip_prefix "10.21." h) as [r|] eqn:Hr; [|discriminate].
    apply strip_prefix_spec in Hr.
    destruct (skip_digits_decompose r) as [a [Hsplit Ha]].
    destruct (skip_digits r) as [|c r2] eqn:Hskip; [discriminate|].
    destruct (Ascii.eqb_spec c ".") as [->|Hc].
    + intros [[Hfst Hsnd]%andb_prop Hall]%andb_prop.
      exists a, r2. repeat split.
      * intros ->. rewrite append_nil in Hsplit. rewrite <- Hsplit in Hfst.
        by rewrite String.eqb_refl in Hfst.
      * done.
      * intros ->. done.
      * apply skip_digits_nil. by apply String.eqb_eq.
      * by rewrite Hr, Hsplit.
    + destruct c as [[] [] [] [] [] [] [] []]; try discriminate.
      by destruct Hc.
  - intros (a & b & [Ha Hda] & [Hb Hdb] & ->).
    assert (Hr : strip_prefix "10.21." ("10.21." +:+ a +:+ "." +:+ b)
                 = Some (a +:+ "." +:+ b)) by (by apply strip_prefix_spec).
    rewrite Hr. rewrite (skip_digits_app a _ Hda).
    assert (Hdot : skip_digits ("." +:+ b) = String "." b) by reflexivity.
    rewrite Hdot. apply skip_digits_nil in Hdb. rewrite Hdb.
    rewrite !andb_true_iff, !negb_true_iff. repeat split.
    + apply String.eqb_neq. intros Heq.
      destruct a as [|c a']; [done|].
      rewrite append_cons in Heq. injection Heq as <- _.
      discriminate Hda.
    + by apply String.eqb_neq.
Qed.

Lemma isLoopbackHost_spec h :
  isLoopbackHost h = true ↔ h = "localhost" ∨ h = "127.0.0.1".
Proof.
  unfold isLoopbackHost. rewrite orb_true_iff, !String.eqb_eq. tauto.
Qed.





(** Without a home URL that parses nothing is rewritten. *)
Example rewrite_with_unparsable_home :
  rewriteUmbrelURL URL_examples "umbrel.local" "http://10.21.0.5:3000/app/settings"
  = "http://10.21.0.5:3000/app/settings".
Proof. reflexivity. Qed.

(** An [https:] destination without a port gets port 80 as well, and so
    does one that states its default port 443: its [port] is empty. *)
Example rewrite_https_without_port :
  rewriteUmbrelURL URL_examples "http://umbrel.local" "https://10.21.0.5/app"
  = "https://umbrel.local:80/app".
Proof. reflexivity. Qed.

Example rewrite_https_default_port :
  rewriteUmbrelURL URL_examples "http://umbrel.local" "https://10.21.0.5:443/app"
  = "https://umbrel.local:80/app".
Proof. reflexivity. Qed.

(** C6: a destination that does not parse, or whose host is neither
    [10.21.<digits>.<digits>] nor [localhost] nor [127.0.0.1], comes back
    unchanged. *)
Theorem rewrite_leaves_other_urls (URL_new : string → option URL)
    (cliUrl url : string) :
  (URL_new url = None
   ∨ ∃ parsed, URL_new url = Some parsed
               ∧ isDockerHost (hostname parsed) = false
               ∧ hostname parsed ≠ "localhost"
               ∧ hostname parsed ≠ "127.0.0.1") →
  rewriteUmbrelURL URL_new cliUrl url = url.
Proof.
  intros [Hnone | (parsed & Hsome & Hdocker & Hlocal & Hip)];
    unfold rewriteUmbrelURL.
  - by rewrite Hnone.
  - rewrite Hsome, Hdocker.
    destruct (isLoopbackHost (hostname parsed)) eqn:Hloop; [|done].
    apply isLoopbackHost_spec in Hloop. tauto.
Qed.

Lemma rewrite_leaves_other_urls_witness :
  rewriteUmbrelURL URL_examples "http://umbrel.local"
    "https://example.com/docs?q=1" = "https://example.com/docs?q=1"
  ∧ rewriteUmbrelURL URL_examples "http://umbrel.local" "not a url"
    = "not a url".
Proof.
  split; apply rewrite_leaves_other_urls.
  - right. exists (mkURL "https:" "example.com" "" "/docs" "?q=1" "").
    repeat split; discriminate.
  - left. reflexivity.
Defined.

End PolicyFacts.

(** ** The shell *)

Section KioskFacts.

Import Kiosk.

Variable URL_new : string → option Policy.URL.
Variable cliConfig : CliConfig.

Lemma run_cons ok e trace s :
  run URL_new cliConfig ((ok, e) :: trace) s
  = run URL_new cliConfig trace (handle URL_new cliConfig ok e s).
Proof. reflexivity. Qed.

Lemma handle_windows ok e s :
  windows (handle URL_new cliConfig ok e s) = windows s.
Proof. destruct e; handlers; simpl; branches; reflexivity. Qed.

Lemma run_windows trace s :
  windows (run URL_new cliConfig trace s) = windows s.
Proof.
  revert s. induction trace as [|[ok e] trace IH]; intros s; [done|].
  rewrite run_cons, IH. apply handle_windows.
Qed.

Lemma handle_targetURL ok e s :
  isKioskNavigate e = false →
  targetURL (handle URL_new cliConfig ok e s) = targetURL s.
Proof.
  destruct e; try discriminate; intros _; handlers; simpl; branches;
    reflexivity.
Qed.

Lemma run_targetURL trace s :
  forallb (fun oe => negb (isKioskNavigate oe.2)) trace = true →
  targetURL (run URL_new cliConfig trace s) = targetURL s.
Proof.
  revert s. induction trace as [|[ok e] trace IH]; intros s; [done|].
  simpl forallb. intros [He Htrace]%andb_prop.
  rewrite run_cons, IH by done.
  apply handle_targetURL. by apply negb_true_iff.
Qed.

(** C3: the window-open handler answers [deny] for every request and
    loads the rewritten destination in the existing window; along any run
    the number of windows stays one. *)
Theorem window_open_stays_in_window (cm : Config.ConfigManager)
    (trace : list (bool * Event)) (ok : bool) (u : string) :
  (windowOpenHandler URL_new cliConfig u).1 = Deny
  ∧ windows (run URL_new cliConfig trace (start cliConfig cm)) = 1
  ∧ windows (handle URL_new cliConfig ok (WindowOpen u)
               (run URL_new cliConfig trace (start cliConfig cm))) = 1
  ∧ calls (handle URL_new cliConfig ok (WindowOpen u)
             (run URL_new cliConfig trace (start cliConfig cm)))
    = (calls (run URL_new cliConfig trace (start cliConfig cm))
       ++ [LoadURL (Policy.rewriteUmbrelURL URL_new (url cliConfig) u)])%list.
Proof.
  repeat split.
  - apply run_windows.
  - rewrite handle_windows. apply run_windows.
Qed.

(** C9: [navigate(url)] stores [url] as target URL and as current URL;
    after any further events other than [navigate], [goHome] loads that
    [url]; and no event other than [navigate] changes the target URL. *)
Theorem navigate_replaces_home (s : Session) (u : string) (ok ok' : bool)
    (trace : list (bool * Event)) :
  forallb (fun oe => negb (isKioskNavigate oe.2)) trace = true →
  targetURL (handle URL_new cliConfig ok (KioskNavigate u) s) = u
  ∧ currentURL (handle URL_new cliConfig ok (KioskNavigate u) s) = u
  ∧ calls (handle URL_new cliConfig ok (KioskNavigate u) s)
    = (calls s ++ [LoadURL u])%list
  ∧ calls (handle URL_new cliConfig ok' KioskGoHome
             (run URL_new cliConfig trace
                (handle URL_new cliConfig ok (KioskNavigate u) s)))
    = (calls (run URL_new cliConfig trace
                (handle URL_new cliConfig ok (KioskNavigate u) s))
       ++ [LoadURL u])%list
  ∧ ∀ e, isKioskNavigate e = false →
         targetURL (handle URL_new cliConfig ok' e s) = targetURL s.
Proof.
  intros Htrace. repeat split.
  - simpl. unfold call. simpl. by rewrite run_targetURL.
  - intros e He. by apply handle_targetURL.
Qed.

(** *** The invariant of the shell *)

Lemma start_invariant cm : shell_invariant (start cliConfig cm).
Proof. split; [reflexivity | apply Nat.le_0_l]. Qed.

Lemma inject_length o dom :
  (List.length dom ≤ 1)%nat → (List.length (injectScript o dom) ≤ 1)%nat.
Proof. destruct dom; simpl; lia. Qed.

Lemma replace_single o dom :
  (List.length dom ≤ 1)%nat → replaceScript o dom = [o].
Proof. destruct dom as [|x [|y dom]]; simpl; [done | done | lia]. Qed.

Lemma remove_single dom :
  (List.length dom ≤ 1)%nat → removeScript dom = [].
Proof. destruct dom as [|x [|y dom]]; simpl; [done | done | lia]. Qed.

Lemma clear_only_timer t : filter (fun i : nat => i ≠ t) [t] = [].
Proof.
  rewrite filter_cons. destruct (decide (t ≠ t)) as [Hne|_]; [by destruct Hne | done].
Qed.

Lemma handle_one_overlay ok e s :
  one_overlay s → one_overlay (handle URL_new cliConfig ok e s).
Proof.
  unfold one_overlay. intros Ho.
  assert (Hinj := λ o, inject_length o _ Ho).
  assert (Hrep := λ o, replace_single o _ Ho).
  assert (Hrem := remove_single _ Ho).
  destruct e; handlers; simpl; branches; simpl;
    rewrite ?Hrep, ?Hrem; simpl; auto with lia.
Qed.

Lemma handle_timers_tracked ok e s :
  timers_tracked s → timers_tracked (handle URL_new cliConfig ok e s).
Proof.
  unfold timers_tracked. intros Ht.
  destruct e; handlers; simpl; branches; try done;
    rewrite ?Ht; simpl; rewrite ?clear_only_timer; try done; congruence.
Qed.

Lemma handle_invariant ok e s :
  shell_invariant s → shell_invariant (handle URL_new cliConfig ok e s).
Proof.
  intros [Ht Ho]. split; [by apply handle_timers_tracked | by apply handle_one_overlay].
Qed.

Lemma run_invariant trace s :
  shell_invariant s → shell_invariant (run URL_new cliConfig trace s).
Proof.
  revert s. induction trace as [|[ok e] trace IH]; intros s Hs; [done|].
  rewrite run_cons. by apply IH, handle_invariant.
Qed.

Lemma reachable_invariant s :
  reachable URL_new cliConfig s → shell_invariant s.
Proof. intros (cm & trace & ->). apply run_invariant, start_invariant. Qed.

(** *** Load failures *)

Lemma isNetworkErrorCode_spec errorCode :
  isNetworkErrorCode errorCode = true ↔
  errorCode = errorCodeOf ERR_CONNECTION_RESET
  ∨ errorCode = errorCodeOf ERR_CONNECTION_REFUSED
  ∨ errorCode = errorCodeOf ERR_NAME_NOT_RESOLVED
  ∨ errorCode = errorCodeOf ERR_INTERNET_DISCONNECTED.
Proof.
  unfold isNetworkErrorCode. simpl errorCodeOf.
  rewrite !orb_true_iff, !Z.eqb_eq. tauto.
Qed.

(** C2, as the code has it: on a failed load met with no overlay showing
    and a page that runs the injected script, the shell shows the
    network-error overlay and has the recovery probe running exactly
    when the error code is -101 (connection reset), -102 (connection
    refused), -105 (name not resolved) or -106 (internet disconnected);
    on every other code, timeouts included, it shows the load-error
    overlay and leaves the probe as it was: none is started, and one that
    an earlier network error started is not stopped. *)
Theorem load_failure_by_error_code (s : Session) (errorCode : Z)
    (errorDescription validatedURL : string) :
  isShowingOverlay s = false →
  overlays s = [] →
  let s' := handle URL_new cliConfig true
              (DidFailLoad errorCode errorDescription validatedURL) s in
  (isNetworkErrorCode errorCode = true ↔
   errorCode = errorCodeOf ERR_CONNECTION_RESET
   ∨ errorCode = errorCodeOf ERR_CONNECTION_REFUSED
   ∨ errorCode = errorCodeOf ERR_NAME_NOT_RESOLVED
   ∨ errorCode = errorCodeOf ERR_INTERNET_DISCONNECTED)
  ∧ if isNetworkErrorCode errorCode
    then overlays s' = [NetworkErrorOverlay]
         ∧ isOnline s' = false
         ∧ is_Some (networkCheckTimer s')
         ∧ (networkCheckTimer s = None →
            networkCheckTimer s' = Some (timerSeq s)
            ∧ intervals s' = (intervals s ++ [timerSeq s])%list)
    else overlays s' = [LoadErrorOverlay (loadErrorText errorDescription)]
         ∧ isOnline s' = isOnline s
         ∧ networkCheckTimer s' = networkCheckTimer s
         ∧ intervals s' = intervals s.
Proof.
  intros Hflag Hdom s'. split; [apply isNetworkErrorCode_spec|].
  subst s'. simpl. unfold didFailLoad.
  destruct (isNetworkErrorCode errorCode).
  - unfold showNetworkError. simpl. rewrite Hflag.
    unfold executeJavaScript, startNetworkCheck. simpl. rewrite Hdom.
    destruct (networkCheckTimer s) eqn:Htimer; simpl; rewrite ?Htimer;
      repeat split; eauto; discriminate.
  - unfold showLoadError. rewrite Hflag.
    unfold executeJavaScript. simpl. by rewrite Hdom.
Qed.

(** *** The network check *)

Lemma probe_event_idle ok e s :
  intervals s = [] → probes s = 0 → isProbeEvent e = true →
  handle URL_new cliConfig ok e s = s.
Proof.
  intros Hi Hp He. destruct e; try discriminate; simpl; by rewrite ?Hi, ?Hp.
Qed.

Lemma probe_events_idle later s :
  intervals s = [] → probes s = 0 →
  forallb (fun oe => isProbeEvent oe.2) later = true →
  run URL_new cliConfig later s = s.
Proof.
  intros Hi Hp. induction later as [|[ok e] later IH]; [done|].
  simpl forallb. intros [He Hlater]%andb_prop.
  rewrite run_cons, probe_event_idle by done. by apply IH.
Qed.

Lemma probe_success_effect ok n s :
  timers_tracked s → probes s = S n →
  networkCheckTimer (handle URL_new cliConfig ok (ProbeSettled true) s) = None
  ∧ intervals (handle URL_new cliConfig ok (ProbeSettled true) s) = []
  ∧ probes (handle URL_new cliConfig ok (ProbeSettled true) s) = n
  ∧ isShowingOverlay (handle URL_new cliConfig ok (ProbeSettled true) s) = false
  ∧ overlays (handle URL_new cliConfig ok (ProbeSettled true) s)
    = (if ok then removeScript (overlays s) else overlays s)
  ∧ calls (handle URL_new cliConfig ok (ProbeSettled true) s)
    = (calls s ++ [LoadURL (currentURL s)])%list.
Proof.
  unfold timers_tracked. intros Ht Hn. simpl. rewrite Hn.
  unfold probeAnswered, reloadPage, hideOverlay, executeJavaScript,
    stopNetworkCheck, clearInterval, call. simpl.
  destruct ok, (networkCheckTimer s) as [t|] eqn:Htimer; simpl;
    rewrite ?Ht, ?Htimer, ?clear_only_timer; repeat split; done.
Qed.

(** What holds of C4 in every reachable state: at most one interval timer
    is running, and it is
    the one the shell remembers; [startNetworkCheck] with a timer active
    changes nothing; and when a probe that is under way answers with
    success, the timer is cancelled, the overlay flag is cleared and the
    overlay removed by the page, exactly one [loadURL] of the current URL is
    issued, and no later tick starts a probe.  When that probe was the only
    one under way, no sequence of later ticks and probe answers changes
    anything: there is no second reload. *)
Theorem network_check_single_timer (s : Session)
    (later : list (bool * Event)) (ok : bool) :
  reachable URL_new cliConfig s →
  let s' := handle URL_new cliConfig ok (ProbeSettled true) s in
  (List.length (intervals s) ≤ 1)%nat
  ∧ timers_tracked s
  ∧ (is_Some (networkCheckTimer s) → startNetworkCheck s = s)
  ∧ (probes s ≠ 0 →
     networkCheckTimer s' = None
     ∧ intervals s' = []
     ∧ isShowingOverlay s' = false
     ∧ (ok = true → overlays s' = [])
     ∧ calls s' = (calls s ++ [LoadURL (currentURL s)])%list
     ∧ (∀ ok', handle URL_new cliConfig ok' NetworkCheckTick s' = s')
     ∧ (probes s = 1 →
        forallb (fun oe => isProbeEvent oe.2) later = true →
        run URL_new cliConfig later s' = s')).
Proof.
  intros [Ht Ho]%reachable_invariant s'.
  split; [|split; [done|split]].
  - unfold timers_tracked in Ht. rewrite Ht.
    destruct (networkCheckTimer s); simpl; lia.
  - intros [t Hsome]. unfold startNetworkCheck. by rewrite Hsome.
  - intros Hprobes. destruct (probes s) as [|n] eqn:Hn; [done|].
    destruct (probe_success_effect ok n s Ht Hn)
      as (Htimer & Hint & Hleft & Hflag & Hdom & Hcalls).
    fold s' in Htimer, Hint, Hleft, Hflag, Hdom, Hcalls.
    repeat split; try done.
    + intros ->. rewrite Hdom. by apply remove_single.
    + intros ok'. simpl. by rewrite Hint.
    + intros Hone Hlater. apply probe_events_idle; [done | | done].
      rewrite Hleft. congruence.
Qed.

(** *** Overlays *)

(** C5, as the code has it: along every run the page holds at most one
    overlay element.  The network-error and load-error overlays are not
    shown while the overlay flag is set: the element already there stays.
    The unresponsive overlay removes the element already there and takes
    its place.  A crash loads the crash page in place of the document. *)
Theorem overlays_never_stack (s : Session) :
  reachable URL_new cliConfig s →
  one_overlay s
  ∧ (isShowingOverlay s = true →
     ∀ ok errorCode errorDescription validatedURL,
       overlays (handle URL_new cliConfig ok
                   (DidFailLoad errorCode errorDescription validatedURL) s)
       = overlays s)
  ∧ overlays (handle URL_new cliConfig true Unresponsive s) = [UnresponsiveOverlay]
  ∧ (∀ ok, overlays (handle URL_new cliConfig ok Crashed s) = []
           ∧ calls (handle URL_new cliConfig ok Crashed s)
             = (calls s ++ [LoadFile "crash.html"])%list)
  ∧ ∀ ok e, one_overlay (handle URL_new cliConfig ok e s).
Proof.
  intros [Ht Ho]%reachable_invariant.
  split; [done|]. split; [|split; [|split]].
  - intros Hflag ok errorCode errorDescription validatedURL.
    simpl. unfold didFailLoad, showNetworkError, showLoadError,
      startNetworkCheck.
    destruct (isNetworkErrorCode errorCode); simpl; rewrite Hflag; simpl;
      [|done].
    by destruct (networkCheckTimer s).
  - simpl. unfold showUnresponsiveOverlay, executeJavaScript. simpl.
    by apply replace_single.
  - done.
  - intros ok e. by apply handle_one_overlay.
Qed.

(** *** Tracking of the current URL *)

(** C7, as the code has it: a navigation event ([will-navigate],
    [did-navigate], [did-navigate-in-page], [will-redirect]) changes the
    current URL only to its own address and only when that address starts
    with [http://] or [https://]; for any other address it leaves the
    current URL as it was.  No navigation event changes the target URL,
    so [goHome] afterwards loads the target it would have loaded before;
    and [goBack] steps back only onto a history entry whose address does
    not start with [file://].  With an http(s) address, [did-navigate] and
    [did-navigate-in-page] do set the current URL to it, and so do
    [will-navigate] and [will-redirect] when rewriting leaves the address
    as it is; a request that rewriting changes leaves the current URL
    alone.  The bridge's [navigate(url)] sends its message only for an
    http(s) address, and the message sets the current URL to it. *)
Theorem navigation_tracks_http_only (ok : bool) (e : Event) (s : Session)
    (u : string) :
  navigationURL e = Some u →
  targetURL (handle URL_new cliConfig ok e s) = targetURL s
  ∧ (isHttpURL u = false →
     currentURL (handle URL_new cliConfig ok e s) = currentURL s)
  ∧ (currentURL (handle URL_new cliConfig ok e s) ≠ currentURL s →
     isHttpURL u = true ∧ currentURL (handle URL_new cliConfig ok e s) = u)
  ∧ (∀ ok', calls (handle URL_new cliConfig ok' KioskGoHome
                     (handle URL_new cliConfig ok e s))
            = (calls (handle URL_new cliConfig ok e s)
               ++ [LoadURL (targetURL s)])%list)
  ∧ (∀ ok' nav,
       calls (handle URL_new cliConfig ok' (KioskGoBack nav)
                (handle URL_new cliConfig ok e s))
       ≠ calls (handle URL_new cliConfig ok e s) →
       ∃ target,
         entries nav !! Z.to_nat (activeIndex nav - 1) = Some target
         ∧ startsWith target "file://" = false)
  ∧ (isHttpURL u = true → isCommit e = true →
     currentURL (handle URL_new cliConfig ok e s) = u)
  ∧ (isHttpURL u = true → isCommit e = false →
     rewriteUmbrelURL URL_new cliConfig u = u →
     currentURL (handle URL_new cliConfig ok e s) = u)
  ∧ (isCommit e = false →
     rewriteUmbrelURL URL_new cliConfig u ≠ u →
     currentURL (handle URL_new cliConfig ok e s) = currentURL s)
  ∧ (∀ v e', bridgeNavigate v = Some e' →
             isHttpURL v = true
             ∧ currentURL (handle URL_new cliConfig ok e' s) = v).
Proof.
  intros Hnav.
  assert (Htarget : targetURL (handle URL_new cliConfig ok e s) = targetURL s).
  { apply handle_targetURL. by destruct e. }
  split; [done|]. split; [|split; [|split; [|split; [|split; [|split; [|split]]]]]].
  - intros Hhttp.
    destruct e; try discriminate; injection Hnav as ->;
      handlers; simpl; rewrite ?Hhttp; branches; reflexivity.
  - destruct (isHttpURL u) eqn:Hhttp.
    + intros Hchg. split; [done|].
      destruct e; try discriminate; injection Hnav as ->;
        revert Hchg; handlers; simpl; rewrite ?Hhttp; branches; simpl;
        try done; intros Hchg; by destruct Hchg.
    + intros Hchg. exfalso. apply Hchg.
      destruct e; try discriminate; injection Hnav as ->;
        handlers; simpl; rewrite ?Hhttp; branches; reflexivity.
  - intros ok'. simpl. unfold call. simpl. by rewrite Htarget.
  - intros ok' nav. simpl. unfold backAllowed.
    destruct (canGoBack nav); simpl; [|done].
    destruct (0 <=? activeIndex nav - 1)%Z; simpl; [|done].
    destruct (entries nav !! Z.to_nat (activeIndex nav - 1)) as [target|];
      [|done].
    destruct (String.eqb target ""); simpl; [done|].
    destruct (startsWith target "file://") eqn:Hfile; simpl; [done|].
    intros _. by exists target.
  - intros Hhttp Hcommit.
    destruct e; try discriminate; injection Hnav as ->; simpl.
    + unfold didNavigate, hideOverlay, executeJavaScript, call.
      rewrite Hhttp. by destruct ok.
    + by rewrite Hhttp.
  - intros Hhttp Hcommit Hsame.
    destruct e; try discriminate; injection Hnav as ->; simpl;
      unfold willNavigate; by rewrite Hsame, String.eqb_refl, Hhttp.
  - intros Hcommit Hchanged. apply String.eqb_neq in Hchanged.
    destruct e; try discriminate; injection Hnav as ->; simpl;
      unfold willNavigate; by rewrite Hchanged.
  - intros v e'. unfold bridgeNavigate.
    destruct (negb (String.eqb v "")); simpl; [|done].
    destruct (isHttpURL v); [|done]. by intros [= <-].
Qed.

End KioskFacts.

(** ** Worked examples on the sample session *)

Section KioskExamples.

Import Kiosk.

(** Scenario A: a popup to a container address lands in the one window,
    on the home host. *)
Example popup_to_container_address :
  calls (sample_run [(true, WindowOpen "http://10.21.0.5:3000/app/settings")])
  = [LoadFile "loading.html"; LoadURL "http://umbrel.local:3000/app/settings"]
  ∧ windows (sample_run [(true, WindowOpen "http://10.21.0.5:3000/app/settings")])
    = 1.
Proof. split; reflexivity. Qed.

Lemma navigate_replaces_home_witness :
  calls (handle Policy.URL_examples sample_cli true KioskGoHome
           (run Policy.URL_examples sample_cli
              [(true, DidNavigate "http://umbrel.local:8080/"); (true, Unresponsive)]
              (handle Policy.URL_examples sample_cli true
                 (KioskNavigate "http://umbrel.local:8080") sample_start)))
  = (calls (run Policy.URL_examples sample_cli
              [(true, DidNavigate "http://umbrel.local:8080/"); (true, Unresponsive)]
              (handle Policy.URL_examples sample_cli true
                 (KioskNavigate "http://umbrel.local:8080") sample_start))
     ++ [LoadURL "http://umbrel.local:8080"])%list.
Proof.
  apply (navigate_replaces_home Policy.URL_examples sample_cli sample_start
           "http://umbrel.local:8080" true true
           [(true, DidNavigate "http://umbrel.local:8080/"); (true, Unresponsive)]).
  reflexivity.
Defined.

Lemma load_failure_by_error_code_witness :
  overlays (handle Policy.URL_examples sample_cli true
              (DidFailLoad (-105) "ERR_NAME_NOT_RESOLVED" "http://umbrel.local/")
              sample_start)
  = [NetworkErrorOverlay]
  ∧ overlays (handle Policy.URL_examples sample_cli true
                (DidFailLoad (-3) "ERR_ABORTED" "http://umbrel.local/")
                sample_start)
    = [LoadErrorOverlay "ERR_ABORTED"].
Proof.
  split.
  - exact (proj1 (proj2 (load_failure_by_error_code Policy.URL_examples
                           sample_cli sample_start (-105)
                           "ERR_NAME_NOT_RESOLVED" "http://umbrel.local/"
                           eq_refl eq_refl))).
  - exact (proj1 (proj2 (load_failure_by_error_code Policy.URL_examples
                           sample_cli sample_start (-3)
                           "ERR_ABORTED" "http://umbrel.local/"
                           eq_refl eq_refl))).
Defined.

(** C2 as worded fails on timeouts: a connection timeout belongs to the
    specified network class, yet the handler shows the load-error overlay
    and starts no probe; and the disconnected error, which the wording
    does not list, is treated as a network error. *)
Lemma timeout_shows_load_error_counterexample :
  networkClassAsSpecified ERR_CONNECTION_TIMED_OUT = true
  ∧ overlays (sample_run [(true, DidFailLoad (errorCodeOf ERR_CONNECTION_TIMED_OUT)
                                   "ERR_CONNECTION_TIMED_OUT" "http://umbrel.local/")])
    = [LoadErrorOverlay "ERR_CONNECTION_TIMED_OUT"]
  ∧ networkCheckTimer
      (sample_run [(true, DidFailLoad (errorCodeOf ERR_CONNECTION_TIMED_OUT)
                            "ERR_CONNECTION_TIMED_OUT" "http://umbrel.local/")])
    = None
  ∧ networkClassAsSpecified ERR_INTERNET_DISCONNECTED = false
  ∧ overlays (sample_run [(true, DidFailLoad (errorCodeOf ERR_INTERNET_DISCONNECTED)
                                   "ERR_INTERNET_DISCONNECTED" "http://umbrel.local/")])
    = [NetworkErrorOverlay]
  ∧ networkCheckTimer
      (sample_run [(true, DidFailLoad (errorCodeOf ERR_INTERNET_DISCONNECTED)
                            "ERR_INTERNET_DISCONNECTED" "http://umbrel.local/")])
    = Some 0.
Proof. repeat split. Qed.

(** A load failure of the other kind leaves a running probe running:
    after a network error and a retry, a timeout shows the load-error
    overlay while the timer of the network check is still set. *)
Example load_error_beside_running_probe :
  overlays (sample_run [(true, DidFailLoad (-105) "ERR_NAME_NOT_RESOLVED"
                                   "http://umbrel.local/");
                        (true, KioskRetry);
                        (true, DidFailLoad (-118) "ERR_CONNECTION_TIMED_OUT"
                                 "http://umbrel.local/")])
  = [LoadErrorOverlay "ERR_CONNECTION_TIMED_OUT"]
  ∧ networkCheckTimer
      (sample_run [(true, DidFailLoad (-105) "ERR_NAME_NOT_RESOLVED"
                            "http://umbrel.local/");
                   (true, KioskRetry);
                   (true, DidFailLoad (-118) "ERR_CONNECTION_TIMED_OUT"
                            "http://umbrel.local/")])
    = Some 0.
Proof. split; reflexivity. Qed.

Lemma network_check_single_timer_witness :
  probes (sample_run [(true, DidFailLoad (-105) "ERR_NAME_NOT_RESOLVED"
                                 "http://umbrel.local/");
                      (true, NetworkCheckTick)]) = 1
  ∧ startNetworkCheck
      (sample_run [(true, DidFailLoad (-105) "ERR_NAME_NOT_RESOLVED"
                            "http://umbrel.local/");
                   (true, NetworkCheckTick)])
    = sample_run [(true, DidFailLoad (-105) "ERR_NAME_NOT_RESOLVED"
                           "http://umbrel.local/");
                  (true, NetworkCheckTick)]
  ∧ calls (handle Policy.URL_examples sample_cli true (ProbeSettled true)
             (sample_run [(true, DidFailLoad (-105) "ERR_NAME_NOT_RESOLVED"
                                   "http://umbrel.local/");
                          (true, NetworkCheckTick)]))
    = [LoadFile "loading.html"; LoadURL "http://umbrel.local"]
  ∧ run Policy.URL_examples sample_cli
      [(true, NetworkCheckTick); (true, ProbeSettled true)]
      (handle Policy.URL_examples sample_cli true (ProbeSettled true)
         (sample_run [(true, DidFailLoad (-105) "ERR_NAME_NOT_RESOLVED"
                               "http://umbrel.local/");
                      (true, NetworkCheckTick)]))
    = handle Policy.URL_examples sample_cli true (ProbeSettled true)
        (sample_run [(true, DidFailLoad (-105) "ERR_NAME_NOT_RESOLVED"
                              "http://umbrel.local/");
                     (true, NetworkCheckTick)]).
Proof.
  assert (Hone : probes (sample_run [(true, DidFailLoad (-105) "ERR_NAME_NOT_RESOLVED"
                                 "http://umbrel.local/");
                      (true, NetworkCheckTick)]) = 1) by reflexivity.
  destruct (network_check_single_timer Policy.URL_examples sample_cli
              (sample_run [(true, DidFailLoad (-105) "ERR_NAME_NOT_RESOLVED"
                                    "http://umbrel.local/");
                           (true, NetworkCheckTick)])
              [(true, NetworkCheckTick); (true, ProbeSettled true)]
              true)
    as (_ & _ & Hstart & Hprobe).
  { eexists _, _. reflexivity. }
  split; [exact Hone|]. split.
  - apply Hstart. exists 0. reflexivity.
  - destruct Hprobe as (_ & _ & _ & _ & Hcalls & _ & Hquiet).
    + intros Hzero. rewrite Hone in Hzero. discriminate Hzero.
    + split; [|apply Hquiet; [exact Hone | reflexivity]].
      exact (eq_trans Hcalls eq_refl).
Defined.

(** C4 at two probes under way at once.  The interval does not wait for
    a probe to come back: it falls due a second time before the first probe
    has answered, and then both probes answer with success.  The first
    answer cancels the timer and reloads; the second, under way already,
    reloads the current URL again.  Two reloads, where C4 says exactly
    one. *)
Lemma overlapping_probes_reload_twice :
  networkCheckTimer
    (sample_run [(true, DidFailLoad (-105) "ERR_NAME_NOT_RESOLVED"
                          "http://umbrel.local/");
                 (true, NetworkCheckTick);
                 (true, NetworkCheckTick);
                 (true, ProbeSettled true)])
  = None
  ∧ calls (sample_run [(true, DidFailLoad (-105) "ERR_NAME_NOT_RESOLVED"
                                "http://umbrel.local/");
                       (true, NetworkCheckTick);
                       (true, NetworkCheckTick);
                       (true, ProbeSettled true)])
    = [LoadFile "loading.html"; LoadURL "http://umbrel.local"]
  ∧ calls (sample_run [(true, DidFailLoad (-105) "ERR_NAME_NOT_RESOLVED"
                                "http://umbrel.local/");
                       (true, NetworkCheckTick);
                       (true, NetworkCheckTick);
                       (true, ProbeSettled true);
                       (true, ProbeSettled true)])
    = [LoadFile "loading.html"; LoadURL "http://umbrel.local";
       LoadURL "http://umbrel.local"].
Proof. repeat split. Qed.

Lemma overlays_never_stack_witness :
  isShowingOverlay (sample_run [(true, Unresponsive)]) = true
  ∧ overlays (handle Policy.URL_examples sample_cli true
                (DidFailLoad (-3) "ERR_ABORTED" "http://umbrel.local/")
                (sample_run [(true, Unresponsive)]))
    = overlays (sample_run [(true, Unresponsive)]).
Proof.
  destruct (overlays_never_stack Policy.URL_examples sample_cli
              (sample_run [(true, Unresponsive)])) as (_ & Hkept & _).
  { eexists _, _. reflexivity. }
  assert (Hflag : isShowingOverlay (sample_run [(true, Unresponsive)]) = true)
    by reflexivity.
  split; [exact Hflag|].
  exact (Hkept Hflag true (-3)%Z "ERR_ABORTED" "http://umbrel.local/").
Defined.

(** C5 as worded fails for the two error overlays: with the unresponsive
    overlay on screen a name-resolution failure puts the shell offline and
    starts the probe, but the unresponsive overlay is not torn down and
    the network-error overlay is not shown. *)
Lemma failure_keeps_earlier_overlay_counterexample :
  overlays (sample_run [(true, Unresponsive)]) = [UnresponsiveOverlay]
  ∧ overlays (sample_run [(true, Unresponsive);
                          (true, DidFailLoad (-105) "ERR_NAME_NOT_RESOLVED"
                                   "http://umbrel.local/")])
    = [UnresponsiveOverlay]
  ∧ isOnline (sample_run [(true, Unresponsive);
                          (true, DidFailLoad (-105) "ERR_NAME_NOT_RESOLVED"
                                   "http://umbrel.local/")])
    = false
  ∧ networkCheckTimer
      (sample_run [(true, Unresponsive);
                   (true, DidFailLoad (-105) "ERR_NAME_NOT_RESOLVED"
                            "http://umbrel.local/")])
    = Some 0.
Proof. repeat split. Qed.

Lemma navigation_tracks_http_only_witness :
  currentURL (handle Policy.URL_examples sample_cli true
                (DidNavigate "file:///opt/umbrel-kiosk/src/loading.html")
                sample_start)
  = currentURL sample_start
  ∧ currentURL (handle Policy.URL_examples sample_cli true
                  (DidNavigateInPage "http://umbrel.local/apps") sample_start)
    = "http://umbrel.local/apps"
  ∧ currentURL (handle Policy.URL_examples sample_cli true
                  (WillRedirect "http://umbrel.local/apps") sample_start)
    = "http://umbrel.local/apps"
  ∧ currentURL (handle Policy.URL_examples sample_cli true
                  (WillNavigate "http://localhost/status") sample_start)
    = currentURL sample_start.
Proof.
  destruct (navigation_tracks_http_only Policy.URL_examples sample_cli true
              (DidNavigate "file:///opt/umbrel-kiosk/src/loading.html")
              sample_start "file:///opt/umbrel-kiosk/src/loading.html" eq_refl)
    as (_ & Hfile & _).
  destruct (navigation_tracks_http_only Policy.URL_examples sample_cli true
              (DidNavigateInPage "http://umbrel.local/apps")
              sample_start "http://umbrel.local/apps" eq_refl)
    as (_ & _ & _ & _ & _ & Hcommit & _).
  destruct (navigation_tracks_http_only Policy.URL_examples sample_cli true
              (WillRedirect "http://umbrel.local/apps")
              sample_start "http://umbrel.local/apps" eq_refl)
    as (_ & _ & _ & _ & _ & _ & Hsame & _).
  destruct (navigation_tracks_http_only Policy.URL_examples sample_cli true
              (WillNavigate "http://localhost/status")
              sample_start "http://localhost/status" eq_refl)
    as (_ & _ & _ & _ & _ & _ & _ & Hrewritten & _).
  split; [exact (Hfile eq_refl)|].
  split; [exact (Hcommit eq_refl eq_refl)|].
  split; [exact (Hsame eq_refl eq_refl eq_refl)|].
  apply Hrewritten; [reflexivity | discriminate].
Defined.

(** C7 as worded fails: the current URL also changes on events that are
    no commit.  A [will-navigate] request sets it before anything is
    loaded, and so does the bridge's [navigate]. *)
Lemma current_url_set_before_commit_counterexample :
  currentURL sample_start = "http://umbrel.local"
  ∧ isCommit (WillNavigate "http://umbrel.local/apps") = false
  ∧ currentURL (handle Policy.URL_examples sample_cli true
                  (WillNavigate "http://umbrel.local/apps") sample_start)
    = "http://umbrel.local/apps"
  ∧ isCommit (KioskNavigate "http://umbrel.local:8080") = false
  ∧ currentURL (handle Policy.URL_examples sample_cli true
                  (KioskNavigate "http://umbrel.local:8080") sample_start)
    = "http://umbrel.local:8080".
Proof. repeat split. Qed.

(** [goForward] has no guard like the one of [goBack]. *)
Example forward_onto_local_page :
  calls (handle Policy.URL_examples sample_cli true
           (KioskGoForward
              {| canGoBack := true; canGoForward := true; activeIndex := 1;
                 entries := ["file:///opt/umbrel-kiosk/src/loading.html";
                             "http://umbrel.local/";
                             "file:///opt/umbrel-kiosk/src/error.html"] |})
           sample_start)
  = [LoadFile "loading.html"; HistoryGoForward].
Proof. reflexivity. Qed.

End KioskExamples.

(** * Further properties *)

(** ** Configuration store: merging, framing, persistence *)

Section ConfigMore.

Import Config.

Lemma fold_insert_lookup (fields : list (string * JSValue))
    (base : gmap string JSValue) (k : string) :
  fold_left (fun m kv => <[kv.1 := kv.2]> m) fields base !! k
  = match lastField k fields with
    | Some w => Some w
    | None => base !! k
    end.
Proof.
  revert base. induction fields as [|[k' v] r IH]; intros base; simpl; [done|].
  rewrite IH. destruct (lastField k r); [done|].
  destruct (String.eqb_spec k' k) as [->|Hne].
  - apply lookup_insert_eq.
  - by apply lookup_insert_ne.
Qed.

Lemma put_indexed_keeps (items : list JSValue) (i : nat)
    (m : gmap string JSValue) (k : string) :
  is_Some (m !! k) → is_Some (put_indexed i items m !! k).
Proof.
  revert i m. induction items as [|x r IH]; intros i m Hk; simpl; [done|].
  apply IH. destruct (decide (pretty i = k)) as [->|Hne].
  - rewrite lookup_insert_eq. eauto.
  - by rewrite lookup_insert_ne.
Qed.

(** X1: loading a file that holds a JSON object puts each of its keys over
    the defaults, the last occurrence of a repeated key winning; a key the
    file does not mention keeps its default, and a key the defaults do not
    know is kept as well. *)
Theorem load_merges_document (cm : ConfigManager)
    (fields : list (string * JSValue)) (k : string) :
  file (disk cm) = Document (JObj fields) →
  props (config (load cm)) !! k
  = match lastField k fields with
    | Some w => Some w
    | None => DEFAULT_CONFIG !! k
    end.
Proof.
  intros Hfile. unfold load. rewrite Hfile. simpl. apply fold_insert_lookup.
Qed.

Lemma load_merges_document_witness :
  props (config (load document_manager)) !! "cursorTheme" = Some (JStr "system")
  ∧ props (config (load document_manager)) !! "kioskName" = Some (JStr "hall")
  ∧ props (config (load document_manager)) !! "dockSize" = Some (JStr "medium").
Proof.
  split; [|split].
  - exact (load_merges_document document_manager _ "cursorTheme" eq_refl).
  - exact (load_merges_document document_manager _ "kioskName" eq_refl).
  - exact (load_merges_document document_manager _ "dockSize" eq_refl).
Defined.

(** X2: whatever JSON value the file holds, loading it loses no default
    key; and a file holding [null], a boolean or a number loads as exactly
    the defaults. *)
Theorem load_keeps_default_keys (cm : ConfigManager) (loaded : JSValue)
    (k : string) :
  file (disk cm) = Document loaded →
  (is_Some (DEFAULT_CONFIG !! k) → is_Some (props (config (load cm)) !! k))
  ∧ ((loaded = JNull ∨ (∃ b, loaded = JBool b) ∨ (∃ n, loaded = JNum n)) →
     props (config (load cm)) = DEFAULT_CONFIG).
Proof.
  intros Hfile. unfold load. rewrite Hfile. simpl. split.
  - intros Hk. destruct loaded; simpl; try done.
    + by apply put_indexed_keeps.
    + by apply put_indexed_keeps.
    + rewrite fold_insert_lookup. destruct (lastField k fields); eauto.
  - intros [-> | [[b ->] | [n ->]]]; reflexivity.
Qed.

Lemma load_keeps_default_keys_witness :
  is_Some (props (config (load document_manager)) !! "homeUrl").
Proof.
  apply (load_keeps_default_keys document_manager _ "homeUrl" eq_refl).
  exists (JStr "http://umbrel.local"). reflexivity.
Defined.

(** X3: [set(key, value)] with a property name touches no other key: the
    stored value of every other name is what it was, also when [key] is
    the empty string or ["__proto__"]. *)
Theorem set_leaves_other_keys (cm : ConfigManager) (key other : string)
    (value : JSValue) :
  other ≠ key →
  props (config (set cm (Name key) value).1) !! other
  = props (config cm) !! other.
Proof.
  intros Hne. unfold set. rewrite save_keeps_config. simpl. unfold assign.
  destruct (props (config cm) !! key); simpl.
  - by rewrite lookup_insert_ne.
  - destruct (String.eqb key "__proto__" && proto_accessor_reached (proto (config cm))).
    + by destruct value.
    + simpl. by rewrite lookup_insert_ne.
Qed.

Lemma set_leaves_other_keys_witness :
  props (config (set sample_manager (Name "dockSize") (JStr "large")).1)
    !! "cursorSize"
  = props (config sample_manager) !! "cursorSize".
Proof.
  apply (set_leaves_other_keys sample_manager "dockSize" "cursorSize").
  discriminate.
Defined.

(** X4: the bulk form [set(object)] gives every key of the object its
    value there (the last one for a repeated key) and leaves every other
    key as it was; the second argument plays no part, and [set(null)]
    changes no key. *)
Theorem bulk_set_merges (cm : ConfigManager)
    (fields : list (string * JSValue)) (value : JSValue) (k : string) :
  props (config (set cm (Bulk (JObj fields)) value).1) !! k
  = match lastField k fields with
    | Some w => Some w
    | None => props (config cm) !! k
    end
  ∧ props (config (set cm (Bulk JNull) value).1) = props (config cm).
Proof.
  unfold set. rewrite !save_keeps_config. simpl. split; [|done].
  apply fold_insert_lookup.
Qed.

Lemma jsonify_object fields : jsonify (JObj fields) = JObj (keepFields fields).
Proof.
  reflexivity.
Qed.

Lemma keepFields_keys l : (keepFields l).*1 `sublist_of` l.*1.
Proof.
  induction l as [|[k x] r IH]; [done|].
  destruct x; simpl; by constructor.
Qed.

Lemma keepFields_elem l k v :
  json_stable v → (k, v) ∈ l → (k, v) ∈ keepFields l.
Proof.
  intros [Hdef Hsame]. induction l as [|[k' x] r IH]; [by intros ?%elem_of_nil|].
  intros [Heq|Hin]%elem_of_cons.
  - injection Heq as <- <-. destruct v; try done; cbn [keepFields];
      rewrite Hsame; apply elem_of_cons; by left.
  - destruct x; cbn [keepFields]; rewrite ?elem_of_cons; auto.
Qed.

Lemma lastField_absent l k : k ∉ l.*1 → lastField k l = None.
Proof.
  induction l as [|[k' x] r IH]; [done|]. simpl.
  intros [Hne Hr]%not_elem_of_cons. rewrite IH by done.
  destruct (String.eqb_spec k' k); congruence.
Qed.

Lemma lastField_unique l k v :
  NoDup l.*1 → (k, v) ∈ l → lastField k l = Some v.
Proof.
  induction l as [|[k' x] r IH]; [by intros _ ?%elem_of_nil|]. simpl.
  intros [Hfresh Hr]%NoDup_cons [Heq|Hin]%elem_of_cons.
  - injection Heq as <- <-. rewrite lastField_absent by done.
    by rewrite String.eqb_refl.
  - by rewrite IH.
Qed.

Lemma new_from_document path d loaded :
  file d = Document loaded →
  props (config (new path d)) = spread_over DEFAULT_CONFIG loaded.
Proof. intros Hd. unfold new, load. simpl. by rewrite Hd. Qed.

Lemma save_writes_document (cm : ConfigManager) :
  writable (disk cm) = true →
  file (disk (save cm).1)
  = Document (JObj (keepFields (map_to_list (props (config cm))))).
Proof. intros Hw. unfold save. by rewrite Hw. Qed.

Lemma save_then_new (cm : ConfigManager) (k : string) (v : JSValue) :
  writable (disk cm) = true →
  props (config cm) !! k = Some v →
  json_stable v →
  props (config (new (configPath cm) (disk (save cm).1))) !! k = Some v.
Proof.
  intros Hw Hk Hv.
  rewrite (new_from_document _ _ _ (save_writes_document cm Hw)).
  unfold spread_over. rewrite fold_insert_lookup.
  rewrite (lastField_unique _ k v); [done| |].
  - apply (sublist_NoDup _ _ (NoDup_fst_map_to_list (props (config cm)))).
    apply keepFields_keys.
  - apply keepFields_elem; [done|]. by apply elem_of_map_to_list.
Qed.

(** X6: a string set under a name other than the empty string and
    ["__proto__"] while the file can be written is there again after a
    restart: [set] answers [true], and the manager constructed from the
    file it wrote returns the string from [get]. *)
Theorem set_survives_restart (cm : ConfigManager) (key text : string) :
  writable (disk cm) = true →
  key ≠ "" → key ≠ "__proto__" →
  (set cm (Name key) (JStr text)).2 = true
  ∧ get (new (configPath cm) (disk (set cm (Name key) (JStr text)).1)) (Some key)
    = Value (JStr text).
Proof.
  intros Hw Hempty Hproto. split.
  - unfold set, save. simpl. by rewrite Hw.
  - apply get_own; [done|]. unfold set.
    apply (save_then_new (with_config cm (assign (config cm) key (JStr text))));
      [done | by apply assign_own | by split].
Qed.

Lemma set_survives_restart_witness :
  get (new (configPath sample_manager)
         (disk (set sample_manager (Name "dockPosition") (JStr "top-left")).1))
    (Some "dockPosition")
  = Value (JStr "top-left").
Proof.
  apply (set_survives_restart sample_manager "dockPosition" "top-left").
  - reflexivity.
  - discriminate.
  - discriminate.
Defined.

End ConfigMore.

(** ** Command line *)

Section ArgsFacts.

Import Kiosk.

Lemma parseArg_insecure c a :
  insecure (parseArg c a) = true ↔ insecure c = true ∨ a = "--insecure".
Proof.
  destruct (String.eqb_spec a "--insecure") as [->|Hne].
  - split; [by right | done].
  - unfold parseArg.
    destruct (startsWith a "--url="); [simpl; tauto|].
    destruct (isHttpURL a); [simpl; tauto|].
    destruct (String.eqb_spec a "--insecure"); [done|].
    destruct (String.eqb a "--dev"); simpl; tauto.
Qed.

Lemma parseArg_devMode c a :
  devMode (parseArg c a) = true ↔ devMode c = true ∨ a = "--dev".
Proof.
  destruct (String.eqb_spec a "--dev") as [->|Hne].
  - split; [by right | done].
  - unfold parseArg.
    destruct (startsWith a "--url="); [simpl; tauto|].
    destruct (isHttpURL a); [simpl; tauto|].
    destruct (String.eqb a "--insecure"); [simpl; tauto|].
    destruct (String.eqb_spec a "--dev"); [done | tauto].
Qed.

Lemma parseArg_url c a : url (parseArg c a) = default (url c) (urlOfArg a).
Proof.
  unfold parseArg, urlOfArg.
  destruct (startsWith a "--url="); [done|].
  destruct (isHttpURL a); [done|].
  by destruct (String.eqb a "--insecure"), (String.eqb a "--dev").
Qed.

Lemma fold_parseArg_flags args c :
  (insecure (fold_left parseArg args c) = true
   ↔ insecure c = true ∨ "--insecure" ∈ args)
  ∧ (devMode (fold_left parseArg args c) = true
     ↔ devMode c = true ∨ "--dev" ∈ args).
Proof.
  revert c. induction args as [|a args IH]; intros c; simpl.
  - rewrite !elem_of_nil. tauto.
  - destruct (IH (parseArg c a)) as [-> ->].
    rewrite parseArg_insecure, parseArg_devMode, !elem_of_cons.
    clear IH. intuition congruence.
Qed.

Lemma fold_parseArg_url args c :
  url (fold_left parseArg args c) = default (url c) (last (omap urlOfArg args)).
Proof.
  revert c. induction args as [|a args IH]; intros c; [done|].
  cbn [fold_left]. rewrite IH, parseArg_url.
  change (omap urlOfArg (a :: args))
    with (match urlOfArg a with
          | Some y => y :: omap urlOfArg args
          | None => omap urlOfArg args
          end).
  destruct (urlOfArg a) as [u|]; [|done].
  rewrite last_cons. by destruct (last (omap urlOfArg args)).
Qed.

(** X7: the parsed command line has [insecure] set exactly when some
    argument is ["--insecure"] and [devMode] set exactly when some argument
    is ["--dev"]; where they stand among the other arguments does not
    matter. *)
Theorem parseArgs_flags (args : list string) :
  (insecure (parseArgs args) = true ↔ "--insecure" ∈ args)
  ∧ (devMode (parseArgs args) = true ↔ "--dev" ∈ args).
Proof.
  unfold parseArgs.
  destruct (fold_parseArg_flags args
              {| url := DEFAULT_URL; insecure := false; devMode := false |})
    as [-> ->].
  simpl. intuition congruence.
Qed.

(** X8: the parsed URL is the one of the last argument that carries a URL,
    be it [--url=...] (the text after the equals sign, which may be empty)
    or a bare argument starting with [http://] or [https://]; without
    such an argument it is the default URL. *)
Theorem parseArgs_url (args : list string) :
  url (parseArgs args) = default DEFAULT_URL (last (omap urlOfArg args)).
Proof. unfold parseArgs. by rewrite fold_parseArg_url. Qed.

(** A later URL wins over an earlier one, flags are passed over, and
    [--url=] alone sets the empty URL. *)
Example parseArgs_sample :
  parseArgs ["http://a.local"; "--dev"; "--url=https://b.local:8443"; "--kiosk"]
  = {| url := "https://b.local:8443"; insecure := false; devMode := true |}
  ∧ url (parseArgs ["--url="]) = "".
Proof. split; reflexivity. Qed.

End ArgsFacts.

(** ** The shell: what persists, what composes *)

Section KioskMore.

Import Kiosk.

Variable URL_new : string → option Policy.URL.
Variable cliConfig : CliConfig.

Lemma handle_keeps_timer ok e s t :
  stopsNetworkCheck e = false →
  networkCheckTimer s = Some t →
  networkCheckTimer (handle URL_new cliConfig ok e s) = Some t.
Proof.
  intros He Ht.
  destruct e; try match goal with r : bool |- _ => destruct r end;
    try discriminate; handlers; simpl; rewrite ?Ht; branches; simpl;
    rewrite ?Ht; congruence.
Qed.

(** X9: once the network check runs, only a successful probe answer or
    quitting stops it.  Through any other events, a manual retry, a
    reload, a navigation that commits, a crash, failed probes, the same
    timer keeps running. *)
Theorem network_check_persists (s : Session) (trace : list (bool * Event))
    (t : nat) :
  networkCheckTimer s = Some t →
  forallb (fun oe => negb (stopsNetworkCheck oe.2)) trace = true →
  networkCheckTimer (run URL_new cliConfig trace s) = Some t.
Proof.
  revert s. induction trace as [|[ok e] trace IH]; intros s Ht; [done|].
  simpl forallb. intros [He Htrace]%andb_prop.
  rewrite run_cons. apply IH; [|done].
  apply handle_keeps_timer; [by apply negb_true_iff | done].
Qed.

Lemma handle_probing_offline ok e s :
  probing_offline s → probing_offline (handle URL_new cliConfig ok e s).
Proof.
  unfold probing_offline. intros Hinv.
  destruct (networkCheckTimer s) as [t|] eqn:Htimer.
  - assert (Hon : isOnline s = false) by (apply Hinv; eauto). clear Hinv.
    destruct e; handlers; simpl; rewrite ?Htimer, ?Hon; branches; simpl;
      rewrite ?Htimer, ?Hon; first [ done | by intros [? [=]] | congruence ].
  - clear Hinv.
    destruct e; handlers; simpl; rewrite ?Htimer; branches; simpl;
      rewrite ?Htimer; first [ done | by intros [? [=]] | congruence ].
Qed.

(** X10: in every state the shell can reach, a running network check
    means the shell is marked offline. *)
Theorem probing_means_offline (s : Session) :
  reachable URL_new cliConfig s →
  is_Some (networkCheckTimer s) → isOnline s = false.
Proof.
  intros (cm & trace & ->).
  assert (Hstart : probing_offline (start cliConfig cm)) by (by intros [? [=]]).
  revert Hstart. generalize (start cliConfig cm).
  induction trace as [|[ok e] trace IH]; intros s Hs; [done|].
  rewrite run_cons. by apply IH, handle_probing_offline.
Qed.

Lemma handle_urls_http ok e s :
  navigateIsHttp e = true →
  isHttpURL (currentURL s) = true ∧ isHttpURL (targetURL s) = true →
  isHttpURL (currentURL (handle URL_new cliConfig ok e s)) = true
  ∧ isHttpURL (targetURL (handle URL_new cliConfig ok e s)) = true.
Proof.
  intros He [Hc Ht].
  destruct e; simpl in He; handlers; simpl; branches; simpl; done.
Qed.

(** X11: when the URL of the command line starts with [http://] or
    [https://] and every [navigate] message carries such a URL, the
    current URL and the target URL start with [http://] or [https://] in
    every state of the run: [reloadPage] and [goHome] never load a local
    page. *)
Theorem tracked_urls_stay_http (cm : Config.ConfigManager)
    (trace : list (bool * Event)) :
  isHttpURL (url cliConfig) = true →
  forallb (fun oe => navigateIsHttp oe.2) trace = true →
  isHttpURL (currentURL (run URL_new cliConfig trace (start cliConfig cm))) = true
  ∧ isHttpURL (targetURL (run URL_new cliConfig trace (start cliConfig cm))) = true.
Proof.
  intros Hcli.
  assert (Hstart : isHttpURL (currentURL (start cliConfig cm)) = true
                   ∧ isHttpURL (targetURL (start cliConfig cm)) = true) by done.
  revert Hstart. generalize (start cliConfig cm).
  induction trace as [|[ok e] trace IH]; intros s Hs; [done|].
  simpl forallb. intros [He Htrace]%andb_prop.
  rewrite run_cons. apply IH; [|done]. by apply handle_urls_http.
Qed.

Lemma handle_keeps_currentURL ok e s :
  keepsCurrentURL e = true →
  currentURL (handle URL_new cliConfig ok e s) = currentURL s.
Proof.
  intros He.
  destruct e; simpl in He; try discriminate;
    try (apply negb_true_iff in He); handlers; simpl; rewrite ?He;
    branches; done.
Qed.

Lemma run_keeps_currentURL trace s :
  forallb (fun oe => keepsCurrentURL oe.2) trace = true →
  currentURL (run URL_new cliConfig trace s) = currentURL s.
Proof.
  revert s. induction trace as [|[ok e] trace IH]; intros s; [done|].
  simpl forallb. intros [He Htrace]%andb_prop.
  rewrite run_cons, IH by done. by apply handle_keeps_currentURL.
Qed.

(** X12: the reload that follows a crash loads the page that crashed.
    Whatever happens between the crash and the timer, short of a
    [navigate] message or a navigation event with an http(s) address,
    the commit of the crash page included, leaves the current URL alone. *)
Theorem crash_reloads_crashed_page (s : Session)
    (between : list (bool * Event)) (ok ok' : bool) :
  forallb (fun oe => keepsCurrentURL oe.2) between = true →
  currentURL (run URL_new cliConfig between (handle URL_new cliConfig ok Crashed s))
  = currentURL s
  ∧ calls (handle URL_new cliConfig ok' CrashTimer
             (run URL_new cliConfig between
                (handle URL_new cliConfig ok Crashed s)))
    = (calls (run URL_new cliConfig between
                (handle URL_new cliConfig ok Crashed s))
       ++ [LoadURL (currentURL s)])%list.
Proof.
  intros Hbetween.
  assert (Hurl : currentURL (run URL_new cliConfig between
                               (handle URL_new cliConfig ok Crashed s))
                 = currentURL s) by (by rewrite run_keeps_currentURL).
  split; [done|].
  revert Hurl.
  generalize (run URL_new cliConfig between (handle URL_new cliConfig ok Crashed s)).
  intros s1 Hurl. simpl. unfold reloadPage, call. simpl. by rewrite Hurl.
Qed.

(** X13: a hang that clears leaves nothing behind.  From any reachable
    state, [unresponsive] followed by [responsive], with the page running
    the scripts, ends with no overlay element and the flag down, and has
    issued no call: no reload.  An overlay shown before the hang is gone
    as well. *)
Theorem hang_and_recovery (s : Session) :
  reachable URL_new cliConfig s →
  overlays (run URL_new cliConfig [(true, Unresponsive); (true, Responsive)] s) = []
  ∧ isShowingOverlay
      (run URL_new cliConfig [(true, Unresponsive); (true, Responsive)] s) = false
  ∧ calls (run URL_new cliConfig [(true, Unresponsive); (true, Responsive)] s)
    = calls s
  ∧ currentURL (run URL_new cliConfig [(true, Unresponsive); (true, Responsive)] s)
    = currentURL s
  ∧ networkCheckTimer
      (run URL_new cliConfig [(true, Unresponsive); (true, Responsive)] s)
    = networkCheckTimer s.
Proof.
  intros [_ Ho]%reachable_invariant. repeat split.
  simpl. unfold hideOverlay, showUnresponsiveOverlay, executeJavaScript. simpl.
  by rewrite (replace_single _ _ Ho).
Qed.

(** X14: a committed navigation clears the overlay state, whether or not
    the page runs the removal script, so the load failure that comes next
    is shown with the overlay of its kind. *)
Theorem commit_clears_overlay (s : Session) (u : string) (ok : bool)
    (errorCode : Z) (errorDescription validatedURL : string) :
  overlays (handle URL_new cliConfig ok (DidNavigate u) s) = []
  ∧ isShowingOverlay (handle URL_new cliConfig ok (DidNavigate u) s) = false
  ∧ overlays (handle URL_new cliConfig true
                (DidFailLoad errorCode errorDescription validatedURL)
                (handle URL_new cliConfig ok (DidNavigate u) s))
    = [if isNetworkErrorCode errorCode then NetworkErrorOverlay
       else LoadErrorOverlay (loadErrorText errorDescription)].
Proof.
  assert (Hdom : overlays (handle URL_new cliConfig ok (DidNavigate u) s) = []).
  { handlers. simpl. by destruct ok, (isHttpURL u). }
  assert (Hflag : isShowingOverlay (handle URL_new cliConfig ok (DidNavigate u) s)
                  = false).
  { handlers. simpl. by destruct ok, (isHttpURL u). }
  split; [done|]. split; [done|].
  generalize dependent (handle URL_new cliConfig ok (DidNavigate u) s).
  intros s1 Hdom Hflag. simpl. unfold didFailLoad, showNetworkError,
    showLoadError, startNetworkCheck, executeJavaScript.
  destruct (isNetworkErrorCode errorCode); simpl; rewrite Hflag; simpl;
    rewrite ?Hdom; [by destruct (networkCheckTimer s1) | done].
Qed.

Lemma handle_overlay_flagged e s :
  one_overlay s → overlay_flagged s →
  overlay_flagged (handle URL_new cliConfig true e s).
Proof.
  unfold one_overlay, overlay_flagged. intros Ho Hinv.
  assert (Hrem := remove_single _ Ho).
  destruct e; handlers; simpl; branches; simpl; rewrite ?Hrem;
    first [ done | by apply Hinv | intros ?; congruence ].
Qed.

(** X15: as long as the page runs every injected script, an overlay
    element is in the page only while the overlay flag is set. *)
Theorem overlay_only_when_flagged (cm : Config.ConfigManager)
    (trace : list (bool * Event)) :
  scriptsRun trace = true →
  isShowingOverlay (run URL_new cliConfig trace (start cliConfig cm)) = false →
  overlays (run URL_new cliConfig trace (start cliConfig cm)) = [].
Proof.
  assert (Hstart : shell_invariant (start cliConfig cm)
                   ∧ overlay_flagged (start cliConfig cm))
    by (split; [apply start_invariant | done]).
  revert Hstart. generalize (start cliConfig cm).
  induction trace as [|[ok e] trace IH]; intros s [Hs Hf]; [by intros _|].
  unfold scriptsRun. simpl forallb. intros [-> Htrace]%andb_prop.
  rewrite run_cons. apply IH; [|done]. split.
  - by apply handle_invariant.
  - apply handle_overlay_flagged; [apply Hs | done].
Qed.

(** X16: [setConfig(key, value)] writes through to the store: for a name
    other than the empty string and ["__proto__"] the store returns the
    value at once.  A cursor setting re-injects the cursor, a dock setting
    re-injects the dock, any other setting, the home URL among them,
    issues no call; and the target and current URL of the session stay as
    they were. *)
Theorem setConfig_writes_through (s : Session) (key : string)
    (value : JSValue) (ok : bool) :
  key ≠ "" → key ≠ "__proto__" →
  Config.get (appConfig (handle URL_new cliConfig ok
                           (KioskSetConfig (Config.Name key) value) s))
    (Some key) = Config.Value value
  ∧ targetURL (handle URL_new cliConfig ok
                 (KioskSetConfig (Config.Name key) value) s) = targetURL s
  ∧ currentURL (handle URL_new cliConfig ok
                  (KioskSetConfig (Config.Name key) value) s) = currentURL s
  ∧ (key = "cursorTheme" ∨ key = "cursorSize" →
     calls (handle URL_new cliConfig ok
              (KioskSetConfig (Config.Name key) value) s)
     = (calls s ++ [InjectSoftwareCursor])%list)
  ∧ (key = "dockPosition" ∨ key = "dockSize" →
     calls (handle URL_new cliConfig ok
              (KioskSetConfig (Config.Name key) value) s)
     = (calls s ++ [InjectNavPanel])%list)
  ∧ (key ≠ "cursorTheme" → key ≠ "cursorSize" →
     key ≠ "dockPosition" → key ≠ "dockSize" →
     calls (handle URL_new cliConfig ok
              (KioskSetConfig (Config.Name key) value) s)
     = calls s).
Proof.
  intros Hempty Hproto.
  assert (Hstore : Config.get (Config.set (appConfig s) (Config.Name key) value).1
                     (Some key) = Config.Value value).
  { apply get_own; [done|]. unfold Config.set. rewrite save_keeps_config.
    simpl. by apply assign_own. }
  simpl. unfold kioskSetConfig, call.
  repeat split.
  - by destruct (String.eqb key "cursorTheme" || String.eqb key "cursorSize"),
      (String.eqb key "dockPosition" || String.eqb key "dockSize").
  - by destruct (String.eqb key "cursorTheme" || String.eqb key "cursorSize"),
      (String.eqb key "dockPosition" || String.eqb key "dockSize").
  - by destruct (String.eqb key "cursorTheme" || String.eqb key "cursorSize"),
      (String.eqb key "dockPosition" || String.eqb key "dockSize").
  - by intros [-> | ->].
  - by intros [-> | ->].
  - intros H1 H2 H3 H4.
    apply String.eqb_neq in H1, H2, H3, H4. by rewrite H1, H2, H3, H4.
Qed.

(** X17: [resetConfig] puts the defaults back into the store and
    re-injects the cursor, and only the cursor: the dock is not
    re-injected, and the session's URLs are untouched. *)
Theorem resetConfig_restores_defaults (s : Session) (ok : bool) :
  Config.getAll (appConfig (handle URL_new cliConfig ok KioskResetConfig s))
  = Config.DEFAULT_CONFIG
  ∧ calls (handle URL_new cliConfig ok KioskResetConfig s)
    = (calls s ++ [InjectSoftwareCursor])%list
  ∧ targetURL (handle URL_new cliConfig ok KioskResetConfig s) = targetURL s
  ∧ currentURL (handle URL_new cliConfig ok KioskResetConfig s) = currentURL s.
Proof.
  repeat split. simpl. unfold Config.getAll, Config.reset.
  by rewrite save_keeps_config.
Qed.

(** X18: a navigation request or redirect to a container or loopback
    address that rewriting changes is cancelled and issued again for the
    rewritten address; the session's variables, the current URL among
    them, stay as they were. *)
Theorem internal_navigation_is_reissued (s : Session) (u : string)
    (parsed base : Policy.URL) (ok : bool) :
  URL_new u = Some parsed →
  Policy.isDockerHost (Policy.hostname parsed) = true
    ∨ Policy.isLoopbackHost (Policy.hostname parsed) = true →
  URL_new (url cliConfig) = Some base →
  Policy.rebuilt parsed (Policy.hostname base) ≠ u →
  handle URL_new cliConfig ok (WillNavigate u) s
  = call (LoadURL (Policy.rebuilt parsed (Policy.hostname base)))
      (call PreventDefault s)
  ∧ handle URL_new cliConfig ok (WillRedirect u) s
    = call (LoadURL (Policy.rebuilt parsed (Policy.hostname base)))
        (call PreventDefault s)
  ∧ currentURL (handle URL_new cliConfig ok (WillNavigate u) s) = currentURL s.
Proof.
  intros Hu Hhost Hbase Hchanged.
  assert (Hrw : rewriteUmbrelURL URL_new cliConfig u
                = Policy.rebuilt parsed (Policy.hostname base)).
  { unfold rewriteUmbrelURL, Policy.rewriteUmbrelURL. rewrite Hu, Hbase.
    destruct (Policy.isDockerHost (Policy.hostname parsed)); [done|].
    destruct Hhost as [Hd|Hl]; [done | by rewrite Hl]. }
  simpl. unfold willNavigate. rewrite Hrw.
  destruct (String.eqb_spec (Policy.rebuilt parsed (Policy.hostname base)) u);
    done.
Qed.

(** X19: when the page cannot run the injected script, a load failure met
    with the flag down falls back to the static error page: [error.html]
    is loaded, the flag goes up and no overlay element is added; a network
    error still starts the probe.  With the flag already up nothing is
    loaded and nothing is shown. *)
Theorem load_failure_without_script (s : Session) (errorCode : Z)
    (errorDescription validatedURL : string) :
  (isShowingOverlay s = false →
   calls (handle URL_new cliConfig false
            (DidFailLoad errorCode errorDescription validatedURL) s)
   = (calls s ++ [LoadFile "error.html"])%list
   ∧ overlays (handle URL_new cliConfig false
                 (DidFailLoad errorCode errorDescription validatedURL) s)
     = overlays s
   ∧ isShowingOverlay (handle URL_new cliConfig false
                         (DidFailLoad errorCode errorDescription validatedURL) s)
     = true
   ∧ (isNetworkErrorCode errorCode = true →
      is_Some (networkCheckTimer
                 (handle URL_new cliConfig false
                    (DidFailLoad errorCode errorDescription validatedURL) s))))
  ∧ (isShowingOverlay s = true →
     ∀ ok, calls (handle URL_new cliConfig ok
                    (DidFailLoad errorCode errorDescription validatedURL) s)
           = calls s
           ∧ overlays (handle URL_new cliConfig ok
                         (DidFailLoad errorCode errorDescription validatedURL) s)
             = overlays s).
Proof.
  split; intros Hflag; [|intros ok]; simpl;
    unfold didFailLoad, showNetworkError, showLoadError, startNetworkCheck,
      executeJavaScript, call;
    destruct (isNetworkErrorCode errorCode); simpl; rewrite Hflag; simpl;
    try (destruct (networkCheckTimer s) eqn:Htimer; simpl; rewrite ?Htimer);
    repeat split; eauto; discriminate.
Qed.

End KioskMore.

(** ** Worked examples for the further properties *)

Section KioskMoreExamples.

Import Kiosk.

Lemma network_check_persists_witness :
  networkCheckTimer
    (run Policy.URL_examples sample_cli
       [(true, KioskRetry); (true, DidNavigate "http://umbrel.local/");
        (true, NetworkCheckTick); (true, ProbeSettled false); (true, Crashed)]
       (sample_run [(true, DidFailLoad (-105) "ERR_NAME_NOT_RESOLVED"
                             "http://umbrel.local/")]))
  = Some 0.
Proof.
  apply (network_check_persists Policy.URL_examples sample_cli
           (sample_run [(true, DidFailLoad (-105) "ERR_NAME_NOT_RESOLVED"
                                 "http://umbrel.local/")])).
  - reflexivity.
  - reflexivity.
Defined.

(** A retry that succeeds does not stop the probe: its next success
    reloads the page once more. *)
Example retry_leaves_probe_running :
  calls (sample_run [(true, DidFailLoad (-105) "ERR_NAME_NOT_RESOLVED"
                              "http://umbrel.local/");
                     (true, KioskRetry);
                     (true, DidNavigate "http://umbrel.local/");
                     (true, NetworkCheckTick);
                     (true, ProbeSettled true)])
  = [LoadFile "loading.html"; LoadURL "http://umbrel.local";
     InjectNavPanel; InjectSoftwareCursor; LoadURL "http://umbrel.local/"].
Proof. reflexivity. Qed.

Lemma probing_means_offline_witness :
  isOnline (sample_run [(true, DidFailLoad (-102) "ERR_CONNECTION_REFUSED"
                                 "http://umbrel.local/");
                        (true, KioskRetry)])
  = false.
Proof.
  apply (probing_means_offline Policy.URL_examples sample_cli).
  - eexists _, _. reflexivity.
  - exists 0. reflexivity.
Defined.

Lemma tracked_urls_stay_http_witness :
  isHttpURL
    (currentURL
       (run Policy.URL_examples sample_cli
          [(true, DidNavigate "file:///usr/lib/umbrel-kiosk/src/loading.html");
           (true, KioskNavigate "http://umbrel.local:8080");
           (true, Crashed); (true, DidNavigate crash_page)]
          (start sample_cli sample_manager)))
  = true.
Proof.
  apply (tracked_urls_stay_http Policy.URL_examples sample_cli sample_manager
           [(true, DidNavigate "file:///usr/lib/umbrel-kiosk/src/loading.html");
            (true, KioskNavigate "http://umbrel.local:8080");
            (true, Crashed); (true, DidNavigate crash_page)]).
  - reflexivity.
  - reflexivity.
Defined.

Lemma crash_reloads_crashed_page_witness :
  calls (handle Policy.URL_examples sample_cli true CrashTimer
           (run Policy.URL_examples sample_cli
              [(true, DidNavigate crash_page); (false, Unresponsive)]
              (handle Policy.URL_examples sample_cli true Crashed sample_start)))
  = (calls (run Policy.URL_examples sample_cli
              [(true, DidNavigate crash_page); (false, Unresponsive)]
              (handle Policy.URL_examples sample_cli true Crashed sample_start))
     ++ [LoadURL (currentURL sample_start)])%list.
Proof.
  apply (crash_reloads_crashed_page Policy.URL_examples sample_cli sample_start
           [(true, DidNavigate crash_page); (false, Unresponsive)] true true).
  reflexivity.
Defined.

Lemma hang_and_recovery_witness :
  overlays (sample_run [(true, DidFailLoad (-3) "ERR_ABORTED" "http://umbrel.local/")])
  = [LoadErrorOverlay "ERR_ABORTED"]
  ∧ overlays
      (run Policy.URL_examples sample_cli
         [(true, Unresponsive); (true, Responsive)]
         (sample_run [(true, DidFailLoad (-3) "ERR_ABORTED" "http://umbrel.local/")]))
    = [].
Proof.
  split; [reflexivity|].
  apply (hang_and_recovery Policy.URL_examples sample_cli
           (sample_run [(true, DidFailLoad (-3) "ERR_ABORTED" "http://umbrel.local/")])).
  eexists _, _. reflexivity.
Defined.

Lemma overlay_only_when_flagged_witness :
  overlays
    (run Policy.URL_examples sample_cli
       [(true, DidFailLoad (-105) "ERR_NAME_NOT_RESOLVED" "http://umbrel.local/");
        (true, NetworkCheckTick); (true, ProbeSettled true)]
       (start sample_cli sample_manager))
  = [].
Proof.
  apply (overlay_only_when_flagged Policy.URL_examples sample_cli sample_manager
           [(true, DidFailLoad (-105) "ERR_NAME_NOT_RESOLVED" "http://umbrel.local/");
            (true, NetworkCheckTick); (true, ProbeSettled true)]).
  - reflexivity.
  - reflexivity.
Defined.

(** When the page does not run the removal script, the element outlives
    the flag. *)
Example overlay_outlives_flag_without_script :
  overlays (sample_run [(true, Unresponsive); (false, Responsive)])
  = [UnresponsiveOverlay]
  ∧ isShowingOverlay (sample_run [(true, Unresponsive); (false, Responsive)])
    = false.
Proof. split; reflexivity. Qed.

Lemma setConfig_writes_through_witness :
  Config.get (appConfig (handle Policy.URL_examples sample_cli true
                           (KioskSetConfig (Config.Name "cursorTheme")
                              (JStr "system")) sample_start))
    (Some "cursorTheme") = Config.Value (JStr "system")
  ∧ calls (handle Policy.URL_examples sample_cli true
             (KioskSetConfig (Config.Name "cursorTheme") (JStr "system"))
             sample_start)
    = (calls sample_start ++ [InjectSoftwareCursor])%list
  ∧ calls (handle Policy.URL_examples sample_cli true
             (KioskSetConfig (Config.Name "homeUrl") (JStr "http://other.local"))
             sample_start)
    = calls sample_start.
Proof.
  destruct (setConfig_writes_through Policy.URL_examples sample_cli sample_start
              "cursorTheme" (JStr "system") true)
    as (Hstore & _ & _ & Hcursor & _); [discriminate | discriminate |].
  destruct (setConfig_writes_through Policy.URL_examples sample_cli sample_start
              "homeUrl" (JStr "http://other.local") true)
    as (_ & _ & _ & _ & _ & Hother); [discriminate | discriminate |].
  split; [exact Hstore|]. split.
  - apply Hcursor. by left.
  - apply Hother; discriminate.
Defined.

Lemma internal_navigation_is_reissued_witness :
  handle Policy.URL_examples sample_cli true
    (WillRedirect "http://localhost/status") sample_start
  = call (LoadURL "http://umbrel.local:80/status") (call PreventDefault sample_start).
Proof.
  apply (internal_navigation_is_reissued Policy.URL_examples sample_cli
           sample_start "http://localhost/status"
           (Policy.mkURL "http:" "localhost" "" "/status" "" "")
           (Policy.mkURL "http:" "umbrel.local" "" "/" "" "") true).
  - reflexivity.
  - right. reflexivity.
  - reflexivity.
  - discriminate.
Defined.

Lemma load_failure_without_script_witness :
  calls (handle Policy.URL_examples sample_cli false
           (DidFailLoad (-105) "ERR_NAME_NOT_RESOLVED" "http://umbrel.local/")
           sample_start)
  = (calls sample_start ++ [LoadFile "error.html"])%list
  ∧ calls (handle Policy.URL_examples sample_cli false
             (DidFailLoad (-105) "ERR_NAME_NOT_RESOLVED" "http://umbrel.local/")
             (sample_run [(true, Crashed)]))
    = calls (sample_run [(true, Crashed)]).
Proof.
  destruct (load_failure_without_script Policy.URL_examples sample_cli
              sample_start (-105) "ERR_NAME_NOT_RESOLVED" "http://umbrel.local/")
    as [Hdown _].
  destruct (load_failure_without_script Policy.URL_examples sample_cli
              (sample_run [(true, Crashed)]) (-105) "ERR_NAME_NOT_RESOLVED"
              "http://umbrel.local/")
    as [_ Hup].
  split.
  - apply Hdown. reflexivity.
  - apply (Hup eq_refl false).
Defined.

End KioskMoreExamples.
